(** * Monster-maker: a verified model of [bot.py]

    The bot is sequential glue code around three external services: a
    text model, an image model and the chat platform.  The embedding
    keeps the shape of the source: every call that leaves the process is
    an event appended to a trace, its outcome is read from a [World]
    (an oracle for everything the process does not control), and Python's
    [try]/[except Exception] is a combinator of a small trace-and-error
    monad. *)

From Stdlib Require Import List String Ascii NArith ZArith Bool Lia.
From Stdlib Require Import DecimalString.
Import ListNotations.

Set Implicit Arguments.
Open Scope string_scope.
Open Scope list_scope.

(* ================================================================== *)
(** ** Python strings                                                  *)
(* ================================================================== *)

(** A Python [str] is a sequence of Unicode code points. *)
Definition codepoint := N.
Definition str := list codepoint.

(** A literal of the source whose characters are all ASCII. *)
Definition lit (s : string) : str := map N_of_ascii (list_ascii_of_string s).

Definition newline : str := [10%N].

(** Lines joined by a line feed, the way a triple-quoted literal spans
    several lines of the source. *)
Fixpoint join_lines (ls : list string) : str :=
  match ls with
  | [] => []
  | [l] => lit l
  | l :: rest => lit l ++ newline ++ join_lines rest
  end.

Module PyStr.

Open Scope N_scope.

(** [str.isspace] on one character: the code points CPython's
    [_PyUnicode_IsWhitespace] accepts. *)
Definition isspace (c : codepoint) : bool :=
  ((9 <=? c) && (c <=? 13))
  || ((28 <=? c) && (c <=? 32))
  || (c =? 133) || (c =? 160) || (c =? 5760)
  || ((8192 <=? c) && (c <=? 8202))
  || (c =? 8232) || (c =? 8233) || (c =? 8239) || (c =? 8287)
  || (c =? 12288).

Close Scope N_scope.

(** [s.lstrip()]: scan from the left while the character is white. *)
Fixpoint lstrip (s : str) : str :=
  match s with
  | [] => []
  | c :: t => if isspace c then lstrip t else s
  end.

(** [s.rstrip()]: the same scan from the right end. *)
Definition rstrip (s : str) : str := rev (lstrip (rev s)).

(** [s.strip()] *)
Definition strip (s : str) : str := rstrip (lstrip s).

Definition all_space (s : str) : bool := forallb isspace s.

(** [x in s] for strings: [x] occurs in [s] as a contiguous run. *)
Definition contains (s x : str) : Prop :=
  exists before after, s = before ++ x ++ after.

Definition startswith (s x : str) : Prop := exists after, s = x ++ after.

(** First and last character, when there is one. *)
Definition first_char (s : str) : option codepoint := hd_error s.
Definition last_char (s : str) : option codepoint := hd_error (rev s).

(** A string with no white space at either end. *)
Definition trimmed (s : str) : Prop :=
  (forall c, first_char s = Some c -> isspace c = false) /\
  (forall c, last_char s = Some c -> isspace c = false).

End PyStr.

(* ================================================================== *)
(** ** GEMINI LOGIC: the prompt                                        *)
(* ================================================================== *)

(** The six tier lines of the rule table (lines 35-40 of the source). *)
Definition RULE_TABLE_lines : list string :=
  [ "- Common:    HP: 80-120  | ATK: 10-30   | DEF: 40-60    | SPD: 30-40";
    "- Rare:      HP: 100-160 | ATK: 30-50   | DEF: 60-80    | SPD: 40-50";
    "- Epic:      HP: 120-200 | ATK: 50-70   | DEF: 80-110   | SPD: 50-60";
    "- Legendary: HP: 150-220 | ATK: 70-100  | DEF: 110-150  | SPD: 60-68";
    "- Mythic:    HP: 200-250 | ATK: 100-130 | DEF: 150-180  | SPD: 68-75";
    "- Sacred:    HP: 250-300 | ATK: 130-150 | DEF: 180-200  | SPD: 75-90" ].

Definition RULE_TABLE : str := join_lines RULE_TABLE_lines.

(** Lines 31-34: the literal opens with a line feed, hence the empty
    first line. *)
Definition PREAMBLE_lines : list string :=
  [ EmptyString;
    "You are a Monster Data Generator.";
    "Input: Name, Element, Rarity.";
    "Rules:" ].

(** Lines 41-50: the output format; the literal closes with a line
    feed, hence the empty last line. *)
Definition FORMAT_lines : list string :=
  [ EmptyString;
    "Output Format (Strictly No Markdown/Brackets):";
    "Name: {Name}";
    "Element: {Element}";
    "Rarity: {Rarity}";
    "Stats: {HP} {ATK} {DEF} {SPD}";
    "Move 1: {Move Name} | {Power} | {Accuracy}";
    "Move 2: {Move Name} | {Power} | {Accuracy}";
    "Move 3: {Move Name} | {Power} | {Accuracy}";
    EmptyString ].

(** [SYSTEM_PROMPT], line by line. *)
Definition SYSTEM_PROMPT_lines : list string :=
  PREAMBLE_lines ++ RULE_TABLE_lines ++ FORMAT_lines.

Definition SYSTEM_PROMPT : str := join_lines SYSTEM_PROMPT_lines.

(** The rule table read as data: a tier and its four stat ranges. *)
Record Tier : Type := {
  tier_name : string;
  HP : N * N;
  ATK : N * N;
  DEF : N * N;
  SPD : N * N
}.

Definition decimal (n : N) : string := NilEmpty.string_of_uint (N.to_uint n).

Definition range (r : N * N) : string :=
  (decimal (fst r) ++ "-" ++ decimal (snd r))%string.

(** A column of the table: the text, then blanks up to [width]. *)
Definition column (width : nat) (s : string) : str :=
  lit s ++ repeat 32%N (width - String.length s).

(** One line of the table, laid out in the columns of the source. *)
Definition render_tier (t : Tier) : str :=
  lit "- "
    ++ column 11 (tier_name t ++ ":")%string
    ++ column 12 ("HP: " ++ range (HP t))%string ++ lit "| "
    ++ column 13 ("ATK: " ++ range (ATK t))%string ++ lit "| "
    ++ column 14 ("DEF: " ++ range (DEF t))%string ++ lit "| "
    ++ lit ("SPD: " ++ range (SPD t))%string.

Definition tier (name : string) (hp atk def spd : N * N) : Tier :=
  {| tier_name := name; HP := hp; ATK := atk; DEF := def; SPD := spd |}.

Definition TIERS : list Tier :=
  [ tier "Common"    ( 80, 120)%N ( 10,  30)%N ( 40,  60)%N (30, 40)%N;
    tier "Rare"      (100, 160)%N ( 30,  50)%N ( 60,  80)%N (40, 50)%N;
    tier "Epic"      (120, 200)%N ( 50,  70)%N ( 80, 110)%N (50, 60)%N;
    tier "Legendary" (150, 220)%N ( 70, 100)%N (110, 150)%N (60, 68)%N;
    tier "Mythic"    (200, 250)%N (100, 130)%N (150, 180)%N (68, 75)%N;
    tier "Sacred"    (250, 300)%N (130, 150)%N (180, 200)%N (75, 90)%N ].

Definition proper_range (r : N * N) : bool := (fst r <? snd r)%N.

Definition proper_tier (t : Tier) : bool :=
  proper_range (HP t) && proper_range (ATK t)
  && proper_range (DEF t) && proper_range (SPD t).

(** Line 55: the f-string that builds the text prompt. *)
Definition format_prompt (name element rarity : str) : str :=
  SYSTEM_PROMPT ++ newline ++ newline
    ++ lit "USER INPUT -> Name: " ++ name
    ++ lit ", Element: " ++ element
    ++ lit ", Rarity: " ++ rarity.

(** Line 64: the image prompt. *)
Definition format_img_prompt (name element : str) : str :=
  lit "Generate a image of " ++ element ++ lit " " ++ name
      ++ lit " monster, Quality - 4k, Ratio - 1:1".

(* ================================================================== *)
(** ** Exceptions and the values of the external libraries             *)
(* ================================================================== *)

(** An instance of Python's [Exception]; [exn_str e] is what [f"{e}"]
    renders.  Exits of the interpreter that are not [Exception]s
    (keyboard interrupt, task cancellation) are outside the model. *)
Record PyException : Type := { exn_str : str }.

Inductive result (A : Type) : Type :=
| Ok (a : A)
| Raise (e : PyException).
Arguments Ok {A} a.
Arguments Raise {A} e.

(** [io.BytesIO]: the bytes written and the read position. *)
Record BytesIO : Type := { buffer : list N; position : nat }.

Definition BytesIO_new : BytesIO := {| buffer := []; position := 0 |}.
Definition seek (bio : BytesIO) (pos : nat) : BytesIO :=
  {| buffer := buffer bio; position := pos |}.

(** The image object of a response part: [img.save(bio, 'PNG')] writes
    the encoding into the buffer, or raises. *)
Record Image : Type := { png_encoding : result (list N) }.

Definition save (img : Image) (bio : BytesIO) : result BytesIO :=
  match png_encoding img with
  | Ok bytes => Ok {| buffer := buffer bio ++ bytes;
                      position := position bio + List.length bytes |}
  | Raise e => Raise e
  end.

(** A part of an image response; reading [.image] may raise. *)
Record Part : Type := { image : result Image }.

Record ImageResponse : Type := { parts : list Part }.

(** The response of the text model; reading [.text] may raise. *)
Record TextResponse : Type := { text : result str }.

Definition IndexError : PyException :=
  {| exn_str := lit "list index out of range" |}.

(** [l[0]] *)
Definition item0 {A} (l : list A) : result A :=
  match l with
  | x :: _ => Ok x
  | [] => Raise IndexError
  end.

(** [telegram.Message], as far as the handler reads it. *)
Record Message : Type := { message_id : Z }.

(** The [Update] of a command: the chat it came from. *)
Record Update : Type := { effective_chat_id : Z }.

(** The calls the handlers make on the chat platform. *)
Inductive ChatCall : Type :=
| reply_text (text : str)
| reply_photo (photo : BytesIO) (caption : str)
| delete_message (chat_id : Z) (msg_id : Z).

(** What a run of a handler does, in order. *)
Inductive Event : Type :=
| EvTextModel (prompt : str)
| EvImageModel (prompt : str)
| EvLogError (msg : str)
| EvChat (call : ChatCall) (outcome : result Message).

Definition Trace := list Event.

(** The chat platform's view of a run: the calls it received and how it
    answered them. *)
Definition ChatHistory := list (ChatCall * result Message).

Fixpoint chat_events (t : Trace) : ChatHistory :=
  match t with
  | [] => []
  | EvChat c o :: t' => (c, o) :: chat_events t'
  | _ :: t' => chat_events t'
  end.

(** Everything outside the process: how each model answers a prompt and
    how the chat platform answers a call, given the calls it has
    already answered. *)
Record World : Type := {
  text_model : str -> result TextResponse;
  image_model : str -> result ImageResponse;
  platform : ChatHistory -> ChatCall -> result Message
}.

(* ================================================================== *)
(** ** The trace-and-error monad                                       *)
(* ================================================================== *)

Definition M (A : Type) : Type := Trace -> Trace * result A.

Definition ret {A} (a : A) : M A := fun t => (t, Ok a).

Definition bind {A B} (m : M A) (f : A -> M B) : M B :=
  fun t =>
    match m t with
    | (t', Ok a) => f a t'
    | (t', Raise e) => (t', Raise e)
    end.

(** A pure computation of the libraries that may raise. *)
Definition lift {A} (r : result A) : M A := fun t => (t, r).

(** [try: body / except Exception as e: handler e] *)
Definition try_except {A} (body : M A) (handler : PyException -> M A) : M A :=
  fun t =>
    match body t with
    | (t', Ok a) => (t', Ok a)
    | (t', Raise e) => handler e t'
    end.

Definition emit (ev : Event) : M unit := fun t => (t ++ [ev], Ok tt).

Declare Scope py_scope.
Delimit Scope py_scope with py.
Notation "x <- m ;; k" := (bind m (fun x => k))
  (at level 61, m at next level, right associativity) : py_scope.
Notation "m ;; k" := (bind m (fun _ => k))
  (at level 61, right associativity) : py_scope.
Notation "' pat <- m ;; k" := (bind m (fun x => match x with pat => k end))
  (at level 61, pat pattern, m at next level, right associativity) : py_scope.
Open Scope py_scope.

(** A run from the empty trace. *)
Definition run {A} (m : M A) : Trace * result A := m [].
Definition events {A} (m : M A) : Trace := fst (run m).
Definition outcome {A} (m : M A) : result A := snd (run m).

(* ================================================================== *)
(** ** GEMINI LOGIC and TELEGRAM HANDLERS                              *)
(* ================================================================== *)

Section Bot.

Variable w : World.

Definition TEXT_MODEL_generate_content (prompt : str) : M TextResponse :=
  emit (EvTextModel prompt) ;; lift (text_model w prompt).

Definition IMAGE_MODEL_generate_content (prompt : str) : M ImageResponse :=
  emit (EvImageModel prompt) ;; lift (image_model w prompt).

Definition logging_error (msg : str) : M unit := emit (EvLogError msg).

(** A call on the chat platform: the platform decides its outcome from
    the calls made so far, and call and outcome are recorded. *)
Definition chat (c : ChatCall) : M Message :=
  fun t => let r := platform w (chat_events t) c in (t ++ [EvChat c r], r).

(** Lines 55-60 of [generate]: the stats text. *)
Definition stats_generator (name element rarity : str) : M str :=
  let prompt := format_prompt name element rarity in
  try_except
    (txt_response <- TEXT_MODEL_generate_content prompt ;;
     txt <- lift (text txt_response) ;;
     ret (PyStr.strip txt))
    (fun e => ret (lit "Error generating text: " ++ exn_str e)).

(** Lines 62-72 of [generate]: the image, [None] when anything fails. *)
Definition image_generator (name element : str) : M (option BytesIO) :=
  try_except
    (let img_prompt := format_img_prompt name element in
     img_response <- IMAGE_MODEL_generate_content img_prompt ;;
     part <- lift (item0 (parts img_response)) ;;
     img <- lift (image part) ;;
     let bio := BytesIO_new in
     bio <- lift (save img bio) ;;
     let bio := seek bio 0 in
     ret (Some bio))
    (fun e =>
       logging_error (lit "Image Error: " ++ exn_str e) ;;
       ret None).

(** The nested function [generate] (lines 54-74). *)
Definition generate (name element rarity : str) : M (str * option BytesIO) :=
  stats_text <- stats_generator name element rarity ;;
  img_bytes <- image_generator name element ;;
  ret (stats_text, img_bytes).

(** [get_gemini_response] runs [generate] on the default executor and
    awaits its result; the hand-over to the worker thread is
    transparent here. *)
Definition get_gemini_response (name element rarity : str)
  : M (str * option BytesIO) :=
  generate name element rarity.

Definition greeting : str :=
  [128075%N] ++ lit " Bot Online!" ++ newline
    ++ lit "Usage: `/generate Name Element Rarity`".

Definition usage_warning : str :=
  [9888%N; 65039%N] ++ lit " Usage: `/generate [Name] [Element] [Rarity]`".

Definition status_text (name : str) : str :=
  [9889%N] ++ lit " Summoning " ++ name ++ lit "...".

Definition critical_text (e : PyException) : str :=
  lit "Critical Error: " ++ exn_str e.

(** [start] (lines 82-83) *)
Definition start (update : Update) (args : option (list str)) : M unit :=
  chat (reply_text greeting) ;; ret tt.

(** [not context.args]: [None] and the empty list are falsy. *)
Definition py_not (args : option (list str)) : bool :=
  match args with
  | None | Some [] => true
  | Some (_ :: _) => false
  end.

(** [len(context.args)], evaluated only when [context.args] is truthy. *)
Definition len (args : option (list str)) : nat :=
  match args with
  | None => 0
  | Some l => List.length l
  end.

(** [context.args[i]] behind the guard of line 86. *)
Definition arg (args : option (list str)) (i : nat) : str :=
  match args with
  | None => []
  | Some l => nth i l []
  end.

(** Lines 94-99: the body of the [try] block.  A [BytesIO] object is
    always truthy, so [if img_bytes] tests for [None]. *)
Definition reply_body (name element rarity : str) : M unit :=
  '(stats_text, img_bytes) <- get_gemini_response name element rarity ;;
  match img_bytes with
  | Some photo => chat (reply_photo photo stats_text) ;; ret tt
  | None => chat (reply_text stats_text) ;; ret tt
  end.

(** Lines 93-102: the [try] block with its [except] handler. *)
Definition reply_block (name element rarity : str) : M unit :=
  try_except
    (reply_body name element rarity)
    (fun e => chat (reply_text (critical_text e)) ;; ret tt).

(** [generate_command] (lines 85-104) *)
Definition generate_command (update : Update) (args : option (list str))
  : M unit :=
  if py_not args || Nat.ltb (len args) 3 then
    chat (reply_text usage_warning) ;; ret tt
  else
    let name := arg args 0 in
    let element := arg args 1 in
    let rarity := arg args 2 in
    status_msg <- chat (reply_text (status_text name)) ;;
    reply_block name element rarity ;;
    chat (delete_message (effective_chat_id update) (message_id status_msg)) ;;
    ret tt.

End Bot.

(* ================================================================== *)
(** ** MAIN: the script from start-up to serving                       *)
(* ================================================================== *)

(** [os.getenv] *)
Definition Environ := str -> option str.

Inductive SysEvent : Type :=
| SysConfigure (api_key : option str)
| SysModel (model_name : str)
| SysLoggingConfig
| SysPrint (msg : str)
| SysBuildApp (token : str)
| SysAddHandler (command : str)
| SysRunPolling.

(** How the script ends: [exit(status)], or inside [run_polling],
    serving commands. *)
Inductive Termination : Type :=
| Exit (status : Z)
| Serving.

(** [not v] for a value of [os.getenv]: unset and empty are falsy. *)
Definition unset (v : option str) : bool :=
  match v with
  | None | Some [] => true
  | Some (_ :: _) => false
  end.

Definition missing_secrets : str :=
  lit "Error: Environment variables GEMINI_API_KEY or TELEGRAM_BOT_TOKEN are missing.".

(** Lines 13-26: what the module does when it is loaded. *)
Definition module_level (GEMINI_KEY : option str) : list SysEvent :=
  [ SysConfigure GEMINI_KEY;
    SysModel (lit "gemini-1.5-flash");
    SysModel (lit "imagen-3.0-generate-001");
    SysLoggingConfig ].

(** The script run as [__main__] (module level, then lines 109-119). *)
Definition main (getenv : Environ) : list SysEvent * Termination :=
  let GEMINI_KEY := getenv (lit "GEMINI_API_KEY") in
  let TELEGRAM_TOKEN := getenv (lit "TELEGRAM_BOT_TOKEN") in
  let loaded := module_level GEMINI_KEY in
  if unset GEMINI_KEY || unset TELEGRAM_TOKEN then
    (loaded ++ [SysPrint missing_secrets], Exit 1)
  else
    (loaded ++
       [ SysBuildApp (match TELEGRAM_TOKEN with Some tok => tok | None => [] end);
         SysAddHandler (lit "start");
         SysAddHandler (lit "generate");
         SysPrint (lit "Bot is running...");
         SysRunPolling ],
     Serving).

(** An event of the script that builds the application or serves. *)
Definition serves (ev : SysEvent) : bool :=
  match ev with
  | SysBuildApp _ | SysAddHandler _ | SysRunPolling => true
  | _ => false
  end.

(* ================================================================== *)
(** ** Reading traces                                                  *)
(* ================================================================== *)

Definition chat_calls (t : Trace) : list ChatCall := map fst (chat_events t).

Definition is_model_call (ev : Event) : bool :=
  match ev with
  | EvTextModel _ | EvImageModel _ => true
  | _ => false
  end.

(** The calls made to either generator client. *)
Definition model_calls (t : Trace) : Trace := filter is_model_call t.

(** The messages passed to [logging.error]. *)
Fixpoint logged (t : Trace) : list str :=
  match t with
  | [] => []
  | EvLogError msg :: t' => msg :: logged t'
  | _ :: t' => logged t'
  end.

Definition is_delete (c : ChatCall) : bool :=
  match c with
  | delete_message _ _ => true
  | _ => false
  end.

Definition is_photo (c : ChatCall) : bool :=
  match c with
  | reply_photo _ _ => true
  | _ => false
  end.

(** The attempts to delete a message, and the photo messages sent. *)
Definition delete_attempts (t : Trace) : list ChatCall :=
  filter is_delete (chat_calls t).

Definition photo_replies (t : Trace) : list ChatCall :=
  filter is_photo (chat_calls t).

(** The messages sent after the first chat call (on the generation path,
    after the status message): every later call that is not a deletion. *)
Definition replies_after_status (t : Trace) : list ChatCall :=
  filter (fun c => negb (is_delete c)) (tl (chat_calls t)).

(* ================================================================== *)
(** ** What the external calls amount to                               *)
(* ================================================================== *)

Definition and_then {A B} (r : result A) (f : A -> result B) : result B :=
  match r with
  | Ok a => f a
  | Raise e => Raise e
  end.

(** The external text call as a whole: the model answers and the answer
    has a text, or one of the two raises. *)
Definition text_outcome (w : World) (prompt : str) : result str :=
  and_then (text_model w prompt) (fun resp => text resp).

(** The image path as a whole: the model answers, the answer has a first
    part, the part has an image, and the image encodes as PNG. *)
Definition image_outcome (w : World) (prompt : str) : result BytesIO :=
  and_then (image_model w prompt) (fun resp =>
  and_then (item0 (parts resp)) (fun part =>
  and_then (image part) (fun img =>
  and_then (save img BytesIO_new) (fun bio =>
  Ok (seek bio 0))))).

(** The ways the image path fails, with the exception each one leaves. *)
Inductive image_failure (w : World) (prompt : str) : PyException -> Prop :=
| call_raises e :
    image_model w prompt = Raise e ->
    image_failure w prompt e
| no_artifact resp :
    image_model w prompt = Ok resp ->
    parts resp = [] ->
    image_failure w prompt IndexError
| no_image resp part rest e :
    image_model w prompt = Ok resp ->
    parts resp = part :: rest ->
    image part = Raise e ->
    image_failure w prompt e
| encoding_fails resp part rest img e :
    image_model w prompt = Ok resp ->
    parts resp = part :: rest ->
    image part = Ok img ->
    png_encoding img = Raise e ->
    image_failure w prompt e.

(** The stats text [generate] returns, from the outcome of the text call. *)
Definition stats_of (o : result str) : str :=
  match o with
  | Ok raw => PyStr.strip raw
  | Raise e => lit "Error generating text: " ++ exn_str e
  end.

(** The image [generate] returns, from the outcome of the image path. *)
Definition image_of (o : result BytesIO) : option BytesIO :=
  match o with
  | Ok bio => Some bio
  | Raise _ => None
  end.

(** The events of the image path. *)
Definition image_events (prompt : str) (o : result BytesIO) : Trace :=
  EvImageModel prompt ::
  match o with
  | Ok _ => []
  | Raise e => [EvLogError (lit "Image Error: " ++ exn_str e)]
  end.

(** The one reply of the [try] block (lines 96-99). *)
Definition reply_call (stats_text : str) (img_bytes : option BytesIO) : ChatCall :=
  match img_bytes with
  | Some photo => reply_photo photo stats_text
  | None => reply_text stats_text
  end.

(** An outcome with its value forgotten. *)
Definition void {A} (r : result A) : result unit :=
  match r with
  | Ok _ => Ok tt
  | Raise e => Raise e
  end.

(** The events of [generate]: the text call, then the image path. *)
Definition generation_events (w : World) (name element rarity : str) : Trace :=
  EvTextModel (format_prompt name element rarity)
  :: image_events (format_img_prompt name element)
                  (image_outcome w (format_img_prompt name element)).

Arguments generation_events : simpl never.

(* ================================================================== *)
(** ** Conditions on platforms and on arguments                        *)
(* ================================================================== *)

(** A platform that accepts every call it receives. *)
Definition accepting (w : World) : Prop :=
  forall h c, exists m, platform w h c = Ok m.

(** An argument of a command is a token of the message text, which is
    split at blanks: it holds no space character. *)
Definition spaceless (s : str) : Prop := ~ In 32%N s.



(* ================================================================== *)
(** ** Properties of the handler, stated for later reference           *)
(* ================================================================== *)

(** The claim that every request with three arguments has its status
    notification created and one attempt made to delete it. *)
Definition status_deleted_exactly_once : Prop :=
  forall (w : World) (u : Update) (args : option (list str)),
    3 <= len args ->
    let tr := events (generate_command w u args) in
    exists m,
      hd_error (chat_events tr)
      = Some (reply_text (status_text (arg args 0)), Ok m)
      /\ delete_attempts tr
         = [delete_message (effective_chat_id u) (message_id m)].

(** The claim that, with both results of the generators at hand, the
    handler sends one reply, shaped by the presence of an image, and no
    other message. *)
Definition one_reply_by_image_presence : Prop :=
  forall (w : World) (u : Update) (n e r : str) (rest : list str)
         (m : Message) (s : str) (img : option BytesIO),
    platform w [] (reply_text (status_text n)) = Ok m ->
    outcome (get_gemini_response w n e r) = Ok (s, img) ->
    replies_after_status (events (generate_command w u (Some (n :: e :: r :: rest))))
    = [reply_call s img].

(** The claim that, when the image path fails, the handler sends the
    stats text as its one text-only reply and no other message. *)
Definition image_failure_one_text_reply : Prop :=
  forall (w : World) (u : Update) (n e r : str) (rest : list str)
         (m : Message) (d : PyException) (s : str),
    platform w [] (reply_text (status_text n)) = Ok m ->
    image_failure w (format_img_prompt n e) d ->
    outcome (stats_generator w n e r) = Ok s ->
    replies_after_status (events (generate_command w u (Some (n :: e :: r :: rest))))
    = [reply_text s].

(** The claim that, when the text call raises and the image path
    succeeds, the user receives one photo with the error string as its
    caption, and no plain text message. *)
Definition text_failure_one_photo : Prop :=
  forall (w : World) (u : Update) (n e r : str) (rest : list str)
         (m : Message) (x : PyException) (bio : BytesIO),
    platform w [] (reply_text (status_text n)) = Ok m ->
    text_outcome w (format_prompt n e r) = Raise x ->
    image_outcome w (format_img_prompt n e) = Ok bio ->
    exists m2 od,
      chat_events (events (generate_command w u (Some (n :: e :: r :: rest))))
      = [ (reply_text (status_text n), Ok m);
          (reply_photo bio (lit "Error generating text: " ++ exn_str x), Ok m2);
          (delete_message (effective_chat_id u) (message_id m), od) ].

(** The claim that a failure of the deletion is caught and ignored: the
    handler returns normally whenever the deletion raises. *)
Definition deletion_failure_contained : Prop :=
  forall (w : World) (u : Update) (args : option (list str))
         (cid mid : Z) (x : PyException),
    In (delete_message cid mid, Raise x)
       (chat_events (events (generate_command w u args))) ->
    outcome (generate_command w u args) = Ok tt.

(* ================================================================== *)
(** ** Concrete requests used to exercise the theorems                 *)
(* ================================================================== *)

Module Sample.

Definition Pyro : str := lit "Pyro".
Definition Fire : str := lit "Fire".
Definition Epic : str := lit "Epic".

Definition args : option (list str) := Some [Pyro; Fire; Epic].
Definition update : Update := {| effective_chat_id := 42 |}.

Definition exn (msg : string) : PyException := {| exn_str := lit msg |}.

Definition payload : str :=
  join_lines [ "Name: Pyro"; "Element: Fire"; "Rarity: Epic";
               "Stats: 150 60 90 55";
               "Move 1: Ember | 60 | 95";
               "Move 2: Blaze | 80 | 85";
               "Move 3: Inferno | 100 | 70" ].

Definition text_ok (_ : str) : result TextResponse :=
  Ok {| text := Ok (newline ++ payload ++ lit "  " ++ newline) |}.

Definition text_timeout (_ : str) : result TextResponse :=
  Raise (exn "timeout").

Definition picture : Image := {| png_encoding := Ok [137; 80; 78; 71]%N |}.

Definition image_ok (_ : str) : result ImageResponse :=
  Ok {| parts := [ {| image := Ok picture |} ] |}.

Definition image_quota (_ : str) : result ImageResponse :=
  Raise (exn "quota exceeded").

(** A platform that accepts every call; messages are numbered by their
    position in the chat. *)
Definition accept_all (h : ChatHistory) (_ : ChatCall) : result Message :=
  Ok {| message_id := 100 + Z.of_nat (List.length h) |}.

(** A platform on which the status message is already gone when the
    handler deletes it. *)
Definition already_gone (h : ChatHistory) (c : ChatCall) : result Message :=
  match c with
  | delete_message _ _ => Raise (exn "Message to delete not found")
  | _ => accept_all h c
  end.

(** A platform that accepts the first call and refuses every later
    one: the user blocks the bot while the monster is generated. *)
Definition blocked_after_status (h : ChatHistory) (c : ChatCall)
  : result Message :=
  match h with
  | [] => accept_all h c
  | _ :: _ => Raise (exn "Forbidden: bot was blocked by the user")
  end.

Definition happy : World :=
  {| text_model := text_ok; image_model := image_ok; platform := accept_all |}.

Definition no_image : World :=
  {| text_model := text_ok; image_model := image_quota; platform := accept_all |}.

Definition text_down : World :=
  {| text_model := text_timeout; image_model := image_ok;
     platform := accept_all |}.

Definition gone : World :=
  {| text_model := text_ok; image_model := image_quota;
     platform := already_gone |}.

Definition blocked : World :=
  {| text_model := text_ok; image_model := image_quota;
     platform := blocked_after_status |}.

Definition no_secrets : Environ := fun _ => None.

Definition str_eqb (a b : str) : bool :=
  if list_eq_dec N.eq_dec a b then true else false.


(** An environment whose bot token is set, but empty. *)
Definition empty_token : Environ :=
  fun k =>
    if str_eqb k (lit "GEMINI_API_KEY") then Some (lit "AIza-key")
    else if str_eqb k (lit "TELEGRAM_BOT_TOKEN") then Some []
    else None.

(** A text model that answers with blanks only. *)
Definition text_blank (_ : str) : result TextResponse :=
  Ok {| text := Ok (lit "  " ++ newline) |}.

Definition blank : World :=
  {| text_model := text_blank; image_model := image_quota;
     platform := accept_all |}.

(** A platform that refuses every call. *)
Definition refuse_all (_ : ChatHistory) (_ : ChatCall) : result Message :=
  Raise (exn "Timed out").

Definition offline : World :=
  {| text_model := text_ok; image_model := image_ok; platform := refuse_all |}.

(** A platform on which the call after the status message times out,
    and every other call is accepted. *)
Definition refuse_reply (h : ChatHistory) (c : ChatCall) : result Message :=
  match h with
  | [_] => Raise (exn "Timed out")
  | _ => accept_all h c
  end.

Definition photo_refused : World :=
  {| text_model := text_ok; image_model := image_ok;
     platform := refuse_reply |}.

Definition no_image_refused : World :=
  {| text_model := text_ok; image_model := image_quota;
     platform := refuse_reply |}.

Definition text_down_refused : World :=
  {| text_model := text_timeout; image_model := image_ok;
     platform := refuse_reply |}.

End Sample.

Arguments format_prompt : simpl never.
Arguments format_img_prompt : simpl never.
Arguments lit : simpl never.
Arguments status_text : simpl never.
Arguments critical_text : simpl never.
Arguments usage_warning : simpl never.

Ltac unfold_monad :=
  unfold try_except, bind, emit, lift, ret, chat in *.

(* ================================================================== *)
(** ** Strings: lemmas                                                 *)
(* ================================================================== *)

Module PyStrFacts.
Import PyStr.

Lemma lstrip_split s :
  exists a, s = a ++ lstrip s /\ all_space a = true.
Proof.
  induction s as [|c t [a [Ha Hs]]]; simpl.
  - exists []. split; reflexivity.
  - destruct (isspace c) eqn:Hc.
    + exists (c :: a). simpl. rewrite Hc, Hs. split; [f_equal; exact Ha | reflexivity].
    + exists []. split; reflexivity.
Qed.

Lemma lstrip_first s c :
  first_char (lstrip s) = Some c -> isspace c = false.
Proof.
  induction s as [|d t IH]; simpl; [discriminate|].
  destruct (isspace d) eqn:Hd; [exact IH|].
  simpl. intros H. injection H as <-. exact Hd.
Qed.

Lemma all_space_rev s : all_space (rev s) = all_space s.
Proof.
  unfold all_space. induction s as [|c t IH]; simpl; [reflexivity|].
  rewrite forallb_app, IH. simpl. rewrite andb_true_r. apply andb_comm.
Qed.

Lemma rstrip_split s :
  exists b, s = rstrip s ++ b /\ all_space b = true.
Proof.
  unfold rstrip. destruct (lstrip_split (rev s)) as [a [Ha Hs]].
  exists (rev a). split.
  - rewrite <- rev_app_distr, <- Ha. symmetry. apply rev_involutive.
  - rewrite all_space_rev. exact Hs.
Qed.

Lemma rstrip_last s c :
  last_char (rstrip s) = Some c -> isspace c = false.
Proof.
  unfold last_char, rstrip. rewrite rev_involutive. apply lstrip_first.
Qed.

(** Stripping on the right keeps a first character that is not white. *)
Lemma rstrip_first s c :
  (forall d, first_char s = Some d -> isspace d = false) ->
  first_char (rstrip s) = Some c -> isspace c = false.
Proof.
  intros Hs Hc.
  destruct (rstrip_split s) as [b [Hb _]].
  apply Hs. rewrite Hb.
  destruct (rstrip s) as [|x xs]; [discriminate|]. exact Hc.
Qed.

Lemma strip_trimmed s : trimmed (strip s).
Proof.
  split; intros c Hc.
  - apply (rstrip_first (lstrip s)); [apply lstrip_first | exact Hc].
  - apply (rstrip_last (lstrip s)). exact Hc.
Qed.

Lemma strip_split s :
  exists a b, s = a ++ strip s ++ b /\ all_space a = true /\ all_space b = true.
Proof.
  destruct (lstrip_split s) as [a [Ha Hsa]].
  destruct (rstrip_split (lstrip s)) as [b [Hb Hsb]].
  exists a, b. unfold strip. rewrite <- Hb, <- Ha. auto.
Qed.

Lemma contains_here s x post : s = x ++ post -> contains s x.
Proof. intros ->. exists [], post. reflexivity. Qed.

Lemma contains_later s pre x : contains s x -> contains (pre ++ s) x.
Proof.
  intros [a [b ->]]. exists (pre ++ a), b. now rewrite <- app_assoc.
Qed.

Lemma contains_end pre x : contains (pre ++ x) x.
Proof. exists pre, []. now rewrite app_nil_r. Qed.

End PyStrFacts.

(* ================================================================== *)
(** ** Runs of the generator clients and of the handler                *)
(* ================================================================== *)

Lemma chat_events_app t t' :
  chat_events (t ++ t') = chat_events t ++ chat_events t'.
Proof.
  induction t as [|ev t IH]; simpl; [reflexivity|].
  destruct ev; simpl; rewrite IH; reflexivity.
Qed.

Lemma logged_app t t' : logged (t ++ t') = logged t ++ logged t'.
Proof.
  induction t as [|ev t IH]; simpl; [reflexivity|].
  destruct ev; simpl; rewrite IH; reflexivity.
Qed.

Lemma generation_events_silent w n e r :
  chat_events (generation_events w n e r) = [].
Proof.
  unfold generation_events, image_events. simpl.
  destruct (image_outcome w _); reflexivity.
Qed.

Section Runs.

Variable w : World.

Lemma stats_generator_run n e r t :
  stats_generator w n e r t
  = (t ++ [EvTextModel (format_prompt n e r)],
     Ok (stats_of (text_outcome w (format_prompt n e r)))).
Proof.
  unfold stats_generator, TEXT_MODEL_generate_content, text_outcome, and_then.
  unfold_monad.
  destruct (text_model w _) as [resp|x]; simpl; [|reflexivity].
  destruct (text resp); reflexivity.
Qed.

Lemma image_generator_run n e t :
  image_generator w n e t
  = (t ++ image_events (format_img_prompt n e)
                       (image_outcome w (format_img_prompt n e)),
     Ok (image_of (image_outcome w (format_img_prompt n e)))).
Proof.
  unfold image_generator, IMAGE_MODEL_generate_content, logging_error.
  unfold image_outcome, image_events, and_then.
  unfold_monad.
  destruct (image_model w _) as [resp|x]; simpl;
    [|rewrite <- app_assoc; reflexivity].
  destruct (item0 (parts resp)) as [part|x]; simpl;
    [|rewrite <- app_assoc; reflexivity].
  destruct (image part) as [img|x]; simpl;
    [|rewrite <- app_assoc; reflexivity].
  destruct (save img BytesIO_new) as [bio|x]; simpl;
    [reflexivity|rewrite <- app_assoc; reflexivity].
Qed.

Lemma generate_run n e r t :
  generate w n e r t
  = (t ++ generation_events w n e r,
     Ok (stats_of (text_outcome w (format_prompt n e r)),
         image_of (image_outcome w (format_img_prompt n e)))).
Proof.
  unfold generate, bind at 1.
  rewrite stats_generator_run.
  unfold bind at 1. rewrite image_generator_run.
  unfold ret, generation_events. rewrite <- app_assoc. reflexivity.
Qed.

(** [generate] always returns, whatever the trace it starts from. *)
Lemma get_gemini_response_outcome n e r :
  outcome (get_gemini_response w n e r)
  = Ok (stats_of (text_outcome w (format_prompt n e r)),
        image_of (image_outcome w (format_img_prompt n e))).
Proof.
  unfold outcome, run, get_gemini_response. rewrite generate_run. reflexivity.
Qed.

Lemma reply_body_run n e r t :
  let c := reply_call (stats_of (text_outcome w (format_prompt n e r)))
                      (image_of (image_outcome w (format_img_prompt n e))) in
  let o := platform w (chat_events t) c in
  reply_body w n e r t
  = (t ++ generation_events w n e r ++ [EvChat c o], void o).
Proof.
  intros c o. unfold reply_body, get_gemini_response, bind at 1.
  rewrite generate_run.
  assert (Hh : chat_events (t ++ generation_events w n e r) = chat_events t).
  { rewrite chat_events_app, generation_events_silent. apply app_nil_r. }
  subst c o. unfold reply_call.
  destruct (image_of _) as [photo|]; unfold_monad; rewrite Hh;
    rewrite <- app_assoc;
    match goal with |- context [platform w ?h ?c] =>
      destruct (platform w h c) end; reflexivity.
Qed.

Lemma reply_block_run n e r t :
  let c := reply_call (stats_of (text_outcome w (format_prompt n e r)))
                      (image_of (image_outcome w (format_img_prompt n e))) in
  let o := platform w (chat_events t) c in
  reply_block w n e r t
  = match o with
    | Ok _ => (t ++ generation_events w n e r ++ [EvChat c o], Ok tt)
    | Raise x =>
        let c' := reply_text (critical_text x) in
        let o' := platform w (chat_events t ++ [(c, o)]) c' in
        (t ++ generation_events w n e r ++ [EvChat c o; EvChat c' o'], void o')
    end.
Proof.
  intros c o. unfold reply_block, try_except.
  rewrite reply_body_run. fold c. fold o.
  destruct o as [m|x] eqn:Ho; unfold void at 1; [reflexivity|].
  unfold_monad.
  rewrite !chat_events_app, generation_events_silent.
  rewrite <- !app_assoc.
  change (chat_events [EvChat c (Raise x)]) with [(c, @Raise Message x)].
  change ([] ++ [(c, @Raise Message x)]) with [(c, @Raise Message x)].
  match goal with |- context [platform w ?h ?c] =>
    destruct (platform w h c) end; reflexivity.
Qed.

End Runs.

(** The guard of line 86 lets through exactly the argument lists with a
    name, an element and a rarity in front. *)
Lemma guard_accepts args :
  py_not args || Nat.ltb (len args) 3 = false
  <-> exists n e r rest, args = Some (n :: e :: r :: rest).
Proof.
  split.
  - destruct args as [[|n [|e [|r rest]]]|]; simpl; try discriminate.
    intros _. now exists n, e, r, rest.
  - intros (n & e & r & rest & ->). reflexivity.
Qed.

Lemma guard_rejects args :
  py_not args || Nat.ltb (len args) 3 = true
  <-> args = None \/ exists l, args = Some l /\ List.length l < 3.
Proof.
  split.
  - destruct args as [[|n [|e [|r rest]]]|]; simpl; try discriminate;
      intros _; [right; eexists; split; [reflexivity|simpl; lia] ..|now left].
  - intros [->|(l & -> & Hl)]; [reflexivity|].
    destruct l as [|n [|e [|r rest]]]; simpl in *; try reflexivity; lia.
Qed.

Section HandlerRuns.

Variable w : World.
Variable u : Update.

(** The usage path: one call, whatever the platform answers. *)
Lemma generate_command_usage args :
  py_not args || Nat.ltb (len args) 3 = true ->
  let o := platform w [] (reply_text usage_warning) in
  run (generate_command w u args)
  = ([EvChat (reply_text usage_warning) o], void o).
Proof.
  intros Hg o. unfold run, generate_command. rewrite Hg.
  unfold_monad. simpl. fold o. destruct o; reflexivity.
Qed.

(** The generation path, case by case on what the platform answers. *)
Lemma generate_command_run n e r rest :
  let status := reply_text (status_text n) in
  let reply := reply_call (stats_of (text_outcome w (format_prompt n e r)))
                          (image_of (image_outcome w (format_img_prompt n e))) in
  run (generate_command w u (Some (n :: e :: r :: rest)))
  = match platform w [] status with
    | Raise x => ([EvChat status (Raise x)], Raise x)
    | Ok m =>
        let del := delete_message (effective_chat_id u) (message_id m) in
        let gen := EvChat status (Ok m) :: generation_events w n e r in
        let h1 := [(status, Ok m)] in
        match platform w h1 reply with
        | Ok m2 =>
            let od := platform w (h1 ++ [(reply, Ok m2)]) del in
            (gen ++ [EvChat reply (Ok m2); EvChat del od], void od)
        | Raise x =>
            let critical := reply_text (critical_text x) in
            let h2 := h1 ++ [(reply, Raise x)] in
            match platform w h2 critical with
            | Ok m3 =>
                let od := platform w (h2 ++ [(critical, Ok m3)]) del in
                (gen ++ [EvChat reply (Raise x); EvChat critical (Ok m3);
                         EvChat del od], void od)
            | Raise y =>
                (gen ++ [EvChat reply (Raise x); EvChat critical (Raise y)],
                 Raise y)
            end
        end
    end.
Proof.
  intros status reply. unfold run, generate_command.
  change (py_not (Some (n :: e :: r :: rest))
          || Nat.ltb (len (Some (n :: e :: r :: rest))) 3) with false.
  cbv iota. change (arg (Some (n :: e :: r :: rest)) 0) with n.
  change (arg (Some (n :: e :: r :: rest)) 1) with e.
  change (arg (Some (n :: e :: r :: rest)) 2) with r.
  cbv zeta. unfold bind at 1. unfold chat at 1.
  change (chat_events []) with (@nil (ChatCall * result Message)).
  fold status. destruct (platform w [] status) as [m|x]; [|reflexivity].
  change ([] ++ [EvChat status (Ok m)]) with [EvChat status (Ok m)].
  unfold bind at 1. rewrite reply_block_run.
  change (chat_events [EvChat status (Ok m)]) with [(status, Ok m)].
  fold reply.
  destruct (platform w [(status, Ok m)] reply) as [m2|x].
  - unfold_monad. rewrite !chat_events_app, generation_events_silent.
    change (chat_events [EvChat status (Ok m)]) with [(status, Ok m)].
    change (chat_events [EvChat reply (Ok m2)]) with [(reply, Ok m2)].
    rewrite app_nil_l.
    match goal with |- context [platform w ?h ?c] =>
      destruct (platform w h c) end;
      cbv zeta; simpl app; rewrite <- !app_assoc; reflexivity.
  - cbv zeta.
    destruct (platform w ([(status, Ok m)] ++ [(reply, Raise x)])
                (reply_text (critical_text x))) as [m3|y];
      unfold void at 1; [|reflexivity].
    unfold_monad. rewrite !chat_events_app, generation_events_silent.
    change (chat_events [EvChat status (Ok m)]) with [(status, Ok m)].
    rewrite app_nil_l.
    change (chat_events [EvChat reply (Raise x);
                         EvChat (reply_text (critical_text x)) (Ok m3)])
      with ([(reply, @Raise Message x)]
              ++ [(reply_text (critical_text x), Ok m3)]).
    rewrite !app_assoc.
    match goal with |- context [platform w ?h ?c] =>
      destruct (platform w h c) end;
      simpl app; rewrite <- !app_assoc; reflexivity.
Qed.

End HandlerRuns.

Section HandlerChat.

Variable w : World.
Variable u : Update.

(** What the chat platform sees of the generation path. *)
Lemma generate_command_chat n e r rest :
  let status := reply_text (status_text n) in
  let reply := reply_call (stats_of (text_outcome w (format_prompt n e r)))
                          (image_of (image_outcome w (format_img_prompt n e))) in
  chat_events (events (generate_command w u (Some (n :: e :: r :: rest))))
  = match platform w [] status with
    | Raise x => [(status, Raise x)]
    | Ok m =>
        let del := delete_message (effective_chat_id u) (message_id m) in
        let h1 := [(status, Ok m)] in
        match platform w h1 reply with
        | Ok m2 =>
            let h2 := h1 ++ [(reply, Ok m2)] in
            h2 ++ [(del, platform w h2 del)]
        | Raise x =>
            let critical := reply_text (critical_text x) in
            let h2 := h1 ++ [(reply, Raise x)] in
            match platform w h2 critical with
            | Ok m3 =>
                let h3 := h2 ++ [(critical, Ok m3)] in
                h3 ++ [(del, platform w h3 del)]
            | Raise y => h2 ++ [(critical, Raise y)]
            end
        end
    end.
Proof.
  intros status reply. unfold events.
  rewrite generate_command_run. fold status. fold reply.
  destruct (platform w [] status) as [m|x]; [|reflexivity].
  cbv zeta.
  destruct (platform w [(status, Ok m)] reply) as [m2|x].
  - unfold fst. rewrite chat_events_app.
    change (chat_events (EvChat status (Ok m) :: generation_events w n e r))
      with ((status, Ok m) :: chat_events (generation_events w n e r)).
    rewrite generation_events_silent. reflexivity.
  - destruct (platform w ([(status, Ok m)] ++ [(reply, Raise x)])
                (reply_text (critical_text x))) as [m3|y];
      unfold fst; rewrite chat_events_app;
      change (chat_events (EvChat status (Ok m) :: generation_events w n e r))
        with ((status, Ok m) :: chat_events (generation_events w n e r));
      rewrite generation_events_silent; reflexivity.
Qed.

(** Every model call and log entry of the generation path, when the
    status message was sent. *)
Lemma generate_command_generation n e r rest m :
  platform w [] (reply_text (status_text n)) = Ok m ->
  let tr := events (generate_command w u (Some (n :: e :: r :: rest))) in
  model_calls tr = [EvTextModel (format_prompt n e r);
                    EvImageModel (format_img_prompt n e)]
  /\ logged tr = logged (image_events (format_img_prompt n e)
                           (image_outcome w (format_img_prompt n e))).
Proof.
  intros Hs tr. subst tr. unfold events.
  rewrite generate_command_run, Hs. cbv zeta.
  set (reply := reply_call _ _).
  assert (Hm : forall tail,
             (forall ev, In ev tail -> is_model_call ev = false) ->
             model_calls ((EvChat (reply_text (status_text n)) (Ok m)
                           :: generation_events w n e r) ++ tail)
             = [EvTextModel (format_prompt n e r);
                EvImageModel (format_img_prompt n e)]).
  { intros tail Ht. unfold model_calls. rewrite filter_app.
    replace (filter is_model_call tail) with (@nil Event).
    - unfold generation_events, image_events. simpl.
      destruct (image_outcome w _); reflexivity.
    - symmetry. induction tail as [|ev tail IH]; [reflexivity|].
      simpl. rewrite (Ht ev (or_introl eq_refl)).
      apply IH. intros ev' Hin. apply Ht. now right. }
  assert (Hl : forall tail,
             logged tail = [] ->
             logged ((EvChat (reply_text (status_text n)) (Ok m)
                      :: generation_events w n e r) ++ tail)
             = logged (image_events (format_img_prompt n e)
                         (image_outcome w (format_img_prompt n e)))).
  { intros tail Ht. rewrite logged_app, Ht, app_nil_r. reflexivity. }
  destruct (platform w [(reply_text (status_text n), Ok m)] reply) as [m2|x].
  - split; [apply Hm|apply Hl; reflexivity].
    intros ev [<-|[<-|[]]]; reflexivity.
  - destruct (platform w _ (reply_text (critical_text x))) as [m3|y];
      (split; [apply Hm|apply Hl; reflexivity]).
    + intros ev [<-|[<-|[<-|[]]]]; reflexivity.
    + intros ev [<-|[<-|[]]]; reflexivity.
Qed.

End HandlerChat.

(* ================================================================== *)
(** ** The prompt formatter                                            *)
(* ================================================================== *)

Lemma system_prompt_parts :
  SYSTEM_PROMPT
  = (join_lines PREAMBLE_lines ++ newline)
      ++ RULE_TABLE ++ (newline ++ join_lines FORMAT_lines).
Proof. vm_compute. reflexivity. Qed.

Lemma rule_table_rendered : map lit RULE_TABLE_lines = map render_tier TIERS.
Proof. vm_compute. reflexivity. Qed.

(** C7: for all (name, element, rarity) the prompt formatter is a total
    function whose value is the fixed system prompt followed by the
    labelled inputs: it contains the three inputs verbatim and the rule
    table unmodified, and the rule table is six tiers, each with
    HP/ATK/DEF/SPD numeric ranges. *)
Theorem format_prompt_contents (name element rarity : str) :
  let prompt := format_prompt name element rarity in
  PyStr.contains prompt name
  /\ PyStr.contains prompt element
  /\ PyStr.contains prompt rarity
  /\ PyStr.startswith prompt SYSTEM_PROMPT
  /\ PyStr.contains prompt RULE_TABLE
  /\ RULE_TABLE = join_lines RULE_TABLE_lines
  /\ map lit RULE_TABLE_lines = map render_tier TIERS
  /\ map tier_name TIERS
     = ["Common"; "Rare"; "Epic"; "Legendary"; "Mythic"; "Sacred"]
  /\ forallb proper_tier TIERS = true.
Proof.
  intros prompt. subst prompt. unfold format_prompt.
  repeat match goal with |- _ /\ _ => split end.
  - do 4 apply PyStrFacts.contains_later.
    eapply PyStrFacts.contains_here. reflexivity.
  - do 6 apply PyStrFacts.contains_later.
    eapply PyStrFacts.contains_here. reflexivity.
  - do 8 apply PyStrFacts.contains_later.
    exists [], []. symmetry. apply app_nil_r.
  - eexists. reflexivity.
  - rewrite system_prompt_parts.
    eexists (join_lines PREAMBLE_lines ++ newline), _.
    rewrite <- !app_assoc. reflexivity.
  - reflexivity.
  - exact rule_table_rendered.
  - reflexivity.
  - reflexivity.
Qed.

(* ================================================================== *)
(** ** The stats generator client                                      *)
(* ================================================================== *)

(** C3: the stats generator client always returns a string after one
    call of the text model: the response text stripped of surrounding
    white space when the call succeeds, and "Error generating text: "
    followed by the detail when the call raises (so a raise with
    message "timeout" gives "Error generating text: timeout"); it never
    raises to its caller. *)
Theorem stats_generator_contract (w : World) (name element rarity : str)
        (t : Trace) :
  let prompt := format_prompt name element rarity in
  exists stats_text,
    stats_generator w name element rarity t
    = (t ++ [EvTextModel prompt], Ok stats_text)
    /\ (forall raw, text_outcome w prompt = Ok raw ->
          stats_text = PyStr.strip raw
          /\ PyStr.trimmed stats_text
          /\ exists a b, raw = a ++ stats_text ++ b
                         /\ PyStr.all_space a = true
                         /\ PyStr.all_space b = true)
    /\ (forall e, text_outcome w prompt = Raise e ->
          stats_text = lit "Error generating text: " ++ exn_str e)
    /\ (forall e, text_outcome w prompt = Raise e ->
          exn_str e = lit "timeout" ->
          stats_text = lit "Error generating text: timeout").
Proof.
  intros prompt. eexists. split; [apply stats_generator_run|].
  fold prompt. repeat match goal with |- _ /\ _ => split end.
  - intros raw ->. simpl.
    split; [reflexivity|].
    split; [apply PyStrFacts.strip_trimmed | apply PyStrFacts.strip_split].
  - intros e ->. reflexivity.
  - intros e -> He. simpl. rewrite He. reflexivity.
Qed.

Lemma stats_generator_timeout :
  stats_generator Sample.text_down Sample.Pyro Sample.Fire Sample.Epic []
  = ([EvTextModel (format_prompt Sample.Pyro Sample.Fire Sample.Epic)],
     Ok (lit "Error generating text: timeout")).
Proof.
  destruct (stats_generator_contract Sample.text_down
              Sample.Pyro Sample.Fire Sample.Epic [])
    as (s & Hrun & _ & _ & Htimeout).
  rewrite Hrun. rewrite (Htimeout (Sample.exn "timeout") eq_refl eq_refl).
  reflexivity.
Defined.

(* ================================================================== *)
(** ** Start-up                                                        *)
(* ================================================================== *)

(** C8: when either secret is absent from the environment, the script
    prints the diagnostic and exits with status 1 right after the module
    is loaded: no application is built, no handler is registered and
    polling never starts. *)
Theorem missing_secret_exits (getenv : Environ) :
  getenv (lit "GEMINI_API_KEY") = None
  \/ getenv (lit "TELEGRAM_BOT_TOKEN") = None ->
  main getenv
  = (module_level (getenv (lit "GEMINI_API_KEY")) ++ [SysPrint missing_secrets],
     Exit 1)
  /\ (1 <> 0)%Z
  /\ existsb serves (fst (main getenv)) = false.
Proof.
  intros H. unfold main.
  assert (Hu : unset (getenv (lit "GEMINI_API_KEY"))
               || unset (getenv (lit "TELEGRAM_BOT_TOKEN")) = true).
  { destruct H as [-> | ->]; simpl; [reflexivity | apply orb_true_r]. }
  rewrite Hu. repeat split; try reflexivity. discriminate.
Qed.

Lemma missing_secret_exits_witness :
  snd (main Sample.no_secrets) = Exit 1.
Proof.
  rewrite (proj1 (missing_secret_exits Sample.no_secrets (or_introl eq_refl))).
  reflexivity.
Defined.

(* ================================================================== *)
(** ** The command dispatcher: too few arguments                       *)
(* ================================================================== *)

Lemma few_arguments_rejected args :
  len args < 3 -> py_not args || Nat.ltb (len args) 3 = true.
Proof.
  intros H. apply guard_rejects.
  destruct args as [l|]; [right; now exists l | now left].
Qed.

(** C6: with fewer than three arguments (none, or no argument list at
    all, included) the handler's one chat call is the usage warning, and
    the run holds no call to either generator client and nothing of the
    generation path. *)
Theorem too_few_arguments (w : World) (u : Update) (args : option (list str)) :
  len args < 3 ->
  let tr := events (generate_command w u args) in
  chat_calls tr = [reply_text usage_warning]
  /\ model_calls tr = []
  /\ logged tr = []
  /\ photo_replies tr = [].
Proof.
  intros H tr. subst tr. unfold events.
  rewrite (generate_command_usage w u args (few_arguments_rejected args H)).
  repeat split.
Qed.

Lemma too_few_arguments_witness :
  chat_calls (events (generate_command Sample.happy Sample.update
                        (Some [Sample.Pyro; Sample.Fire])))
  = [reply_text usage_warning].
Proof.
  apply (too_few_arguments Sample.happy Sample.update
           (Some [Sample.Pyro; Sample.Fire])).
  simpl. lia.
Defined.

Lemma usage_is_not_status name : usage_warning <> status_text name.
Proof. unfold usage_warning, status_text. simpl. discriminate. Qed.

(** C10: on the usage path the run is the single usage-warning reply:
    no status notification is sent and no deletion is attempted. *)
Theorem usage_path_frame (w : World) (u : Update) (args : option (list str)) :
  len args < 3 ->
  let tr := events (generate_command w u args) in
  (exists o, tr = [EvChat (reply_text usage_warning) o]
             /\ outcome (generate_command w u args) = void o)
  /\ delete_attempts tr = []
  /\ (forall name, ~ In (reply_text (status_text name)) (chat_calls tr)).
Proof.
  intros H tr. subst tr. unfold events, outcome.
  rewrite (generate_command_usage w u args (few_arguments_rejected args H)).
  repeat match goal with |- _ /\ _ => split end.
  - eexists. split; reflexivity.
  - reflexivity.
  - intros name [Heq|[]]. apply (@usage_is_not_status name).
    unfold fst in Heq. congruence.
Qed.

Lemma usage_path_frame_witness :
  delete_attempts (events (generate_command Sample.happy Sample.update None))
  = [].
Proof.
  apply (usage_path_frame Sample.happy Sample.update None).
  simpl. lia.
Defined.

(* ================================================================== *)
(** ** The request orchestrator: the reply                             *)
(* ================================================================== *)

Lemma chat_calls_app t t' : chat_calls (t ++ t') = chat_calls t ++ chat_calls t'.
Proof. unfold chat_calls. rewrite chat_events_app. apply map_app. Qed.

Lemma reply_body_calls w n e r t :
  chat_calls (fst (reply_body w n e r t))
  = chat_calls t
      ++ [reply_call (stats_of (text_outcome w (format_prompt n e r)))
                     (image_of (image_outcome w (format_img_prompt n e)))].
Proof.
  rewrite reply_body_run. unfold fst.
  rewrite !chat_calls_app. unfold chat_calls at 2.
  rewrite generation_events_silent. reflexivity.
Qed.

Lemma image_failure_outcome w prompt d :
  image_failure w prompt d -> image_outcome w prompt = Raise d.
Proof.
  unfold image_outcome.
  intros [e H | resp H Hp | resp part rest e H Hp Hi
          | resp part rest img e H Hp Hi He]; rewrite H; simpl.
  - reflexivity.
  - rewrite Hp. reflexivity.
  - rewrite Hp. simpl. rewrite Hi. reflexivity.
  - rewrite Hp. simpl. rewrite Hi. simpl. unfold save. rewrite He. reflexivity.
Qed.

Lemma image_outcome_failure w prompt d :
  image_outcome w prompt = Raise d -> image_failure w prompt d.
Proof.
  unfold image_outcome.
  destruct (image_model w prompt) as [resp|e] eqn:H; simpl.
  2:{ intros [= <-]. now apply call_raises. }
  destruct (parts resp) as [|part rest] eqn:Hp; simpl.
  1:{ intros [= <-]. now apply no_artifact with resp. }
  destruct (image part) as [img|e] eqn:Hi; simpl.
  2:{ intros [= <-]. now apply no_image with resp part rest. }
  unfold save. destruct (png_encoding img) as [bytes|e] eqn:He; simpl.
  - discriminate.
  - intros [= <-]. now apply encoding_fails with resp part rest img.
Qed.

Lemma error_text_not_status e name :
  lit "Error generating text: " ++ exn_str e <> status_text name.
Proof. unfold status_text, lit. simpl. discriminate. Qed.

Lemma error_text_not_critical e y :
  lit "Error generating text: " ++ exn_str e <> critical_text y.
Proof. unfold critical_text, lit. simpl. discriminate. Qed.

(** C5, as stated, fails: when the platform refuses the photo, lines
    101-102 send a second message, the "Critical Error" text, so the
    reply is not the only message of the request. *)
Lemma one_reply_by_image_presence_fails :
  let tr := events (generate_command Sample.photo_refused Sample.update
                      Sample.args) in
  let photo := reply_photo {| buffer := [137; 80; 78; 71]%N; position := 0 |}
                 Sample.payload in
  chat_events tr
  = [ (reply_text (status_text Sample.Pyro), Ok {| message_id := 100 |});
      (photo, Raise (Sample.exn "Timed out"));
      (reply_text (lit "Critical Error: Timed out"), Ok {| message_id := 102 |});
      (delete_message 42 100, Ok {| message_id := 103 |}) ]
  /\ replies_after_status tr
     = [photo; reply_text (lit "Critical Error: Timed out")]
  /\ ~ one_reply_by_image_presence.
Proof.
  split; [vm_compute; reflexivity|].
  split; [vm_compute; reflexivity|].
  intros H.
  specialize (H Sample.photo_refused Sample.update
                Sample.Pyro Sample.Fire Sample.Epic []
                {| message_id := 100 |} Sample.payload
                (Some {| buffer := [137; 80; 78; 71]%N; position := 0 |})
                eq_refl eq_refl).
  vm_compute in H. discriminate H.
Qed.

(** C5, amended: when the status message was sent and
    [get_gemini_response] has returned the stats text and the image,
    the [try] block makes exactly one chat call: a photo with the stats
    text as its caption when there is an image, the stats text as a
    plain message when there is none.  When the platform accepts that
    reply it is the only message after the status message and the
    deletion of the status message follows; when the platform refuses
    it, a second message follows, the plain text "Critical Error: "
    with the detail of the refusal, and the deletion follows that
    message if the platform accepts it. *)
Theorem reply_shape (w : World) (u : Update) (n e r : str) (rest : list str)
        (m : Message) (s : str) (img : option BytesIO) :
  platform w [] (reply_text (status_text n)) = Ok m ->
  outcome (get_gemini_response w n e r) = Ok (s, img) ->
  let status := reply_text (status_text n) in
  let reply := match img with
               | Some photo => reply_photo photo s
               | None => reply_text s
               end in
  let del := delete_message (effective_chat_id u) (message_id m) in
  let tr := events (generate_command w u (Some (n :: e :: r :: rest))) in
  let h1 := [(status, Ok m)] in
  (forall t, chat_calls (fst (reply_body w n e r t)) = chat_calls t ++ [reply])
  /\ match platform w h1 reply with
     | Ok _ =>
         chat_calls tr = [status; reply; del]
         /\ replies_after_status tr = [reply]
     | Raise x =>
         let critical := reply_text (critical_text x) in
         replies_after_status tr = [reply; critical]
         /\ match platform w (h1 ++ [(reply, Raise x)]) critical with
            | Ok _ => chat_calls tr = [status; reply; critical; del]
            | Raise _ => chat_calls tr = [status; reply; critical]
            end
     end.
Proof.
  intros Hs Hg status reply del tr h1.
  rewrite get_gemini_response_outcome in Hg. injection Hg as Hst Himg.
  assert (Hr : reply_call (stats_of (text_outcome w (format_prompt n e r)))
                 (image_of (image_outcome w (format_img_prompt n e))) = reply).
  { rewrite Hst, Himg. reflexivity. }
  assert (Hd : is_delete reply = false) by (subst reply; now destruct img).
  split.
  - intros t. rewrite reply_body_calls, Hr. reflexivity.
  - subst tr. unfold replies_after_status, chat_calls.
    rewrite generate_command_chat, Hs, Hr. cbv zeta.
    fold status. fold del. fold h1.
    destruct (platform w h1 reply) as [m2|x].
    + simpl. rewrite Hd. split; reflexivity.
    + destruct (platform w (h1 ++ [(reply, Raise x)])
                  (reply_text (critical_text x))) as [m3|y];
        simpl; rewrite Hd; split; reflexivity.
Qed.

Lemma reply_shape_witness :
  chat_calls (fst (reply_body Sample.happy Sample.Pyro Sample.Fire Sample.Epic []))
  = [reply_photo {| buffer := [137; 80; 78; 71]%N; position := 0 |}
       Sample.payload].
Proof.
  apply (proj1 (@reply_shape Sample.happy Sample.update
                  Sample.Pyro Sample.Fire Sample.Epic []
                  {| message_id := 100 |} Sample.payload
                  (Some {| buffer := [137; 80; 78; 71]%N; position := 0 |})
                  eq_refl eq_refl) []).
Defined.

(** C9, as stated, fails: when the platform refuses the photo, no photo
    arrives and the user receives a plain text "Critical Error" message
    (lines 101-102). *)
Lemma text_failure_one_photo_fails :
  let tr := events (generate_command Sample.text_down_refused Sample.update
                      Sample.args) in
  chat_events tr
  = [ (reply_text (status_text Sample.Pyro), Ok {| message_id := 100 |});
      (reply_photo {| buffer := [137; 80; 78; 71]%N; position := 0 |}
         (lit "Error generating text: timeout"),
       Raise (Sample.exn "Timed out"));
      (reply_text (lit "Critical Error: Timed out"), Ok {| message_id := 102 |});
      (delete_message 42 100, Ok {| message_id := 103 |}) ]
  /\ ~ text_failure_one_photo.
Proof.
  split; [vm_compute; reflexivity|].
  intros H.
  destruct (H Sample.text_down_refused Sample.update
              Sample.Pyro Sample.Fire Sample.Epic []
              {| message_id := 100 |} (Sample.exn "timeout")
              {| buffer := [137; 80; 78; 71]%N; position := 0 |}
              eq_refl eq_refl eq_refl) as (m2 & od & Hc).
  vm_compute in Hc. discriminate Hc.
Qed.

(** C9, amended: when the text call raises and the image path succeeds,
    the image model is still called after the text model, and the reply
    is one photo message whose caption is "Error generating text: "
    followed by the detail; that string is never sent as a plain text
    message.  When the platform accepts the photo, it is the only
    message after the status message; when the platform refuses it, no
    photo arrives and the plain text "Critical Error: " with the detail
    of the refusal is sent after it. *)
Theorem text_failure_keeps_photo (w : World) (u : Update) (n e r : str)
        (rest : list str) (m : Message) (x : PyException) (bio : BytesIO) :
  platform w [] (reply_text (status_text n)) = Ok m ->
  text_outcome w (format_prompt n e r) = Raise x ->
  image_outcome w (format_img_prompt n e) = Ok bio ->
  let status := reply_text (status_text n) in
  let caption := lit "Error generating text: " ++ exn_str x in
  let photo := reply_photo bio caption in
  let del := delete_message (effective_chat_id u) (message_id m) in
  let tr := events (generate_command w u (Some (n :: e :: r :: rest))) in
  let h1 := [(status, Ok m)] in
  model_calls tr = [EvTextModel (format_prompt n e r);
                    EvImageModel (format_img_prompt n e)]
  /\ outcome (get_gemini_response w n e r) = Ok (caption, Some bio)
  /\ photo_replies tr = [photo]
  /\ ~ In (reply_text caption) (chat_calls tr)
  /\ match platform w h1 photo with
     | Ok m2 =>
         let h2 := h1 ++ [(photo, Ok m2)] in
         chat_events tr = h2 ++ [(del, platform w h2 del)]
         /\ replies_after_status tr = [photo]
     | Raise y =>
         let critical := reply_text (critical_text y) in
         let h2 := h1 ++ [(photo, Raise y)] in
         replies_after_status tr = [photo; critical]
         /\ match platform w h2 critical with
            | Ok m3 =>
                let h3 := h2 ++ [(critical, Ok m3)] in
                chat_events tr = h3 ++ [(del, platform w h3 del)]
            | Raise z => chat_events tr = h2 ++ [(critical, Raise z)]
            end
     end.
Proof.
  intros Hs Ht Hi status caption photo del tr h1.
  split; [apply (generate_command_generation w u n e r rest Hs)|].
  split; [rewrite get_gemini_response_outcome, Ht, Hi; reflexivity|].
  assert (Hne1 : reply_text (status_text n) <> reply_text caption).
  { intros H. apply (@error_text_not_status x n). subst caption. congruence. }
  assert (Hne2 : forall y, reply_text (critical_text y) <> reply_text caption).
  { intros y H. apply (@error_text_not_critical x y). subst caption.
    congruence. }
  subst tr. unfold photo_replies, replies_after_status, chat_calls.
  rewrite generate_command_chat, Hs, Ht, Hi. cbv zeta.
  change (reply_call (stats_of (Raise x)) (image_of (Ok bio))) with photo.
  fold status. fold del. fold h1.
  destruct (platform w h1 photo) as [m2|y].
  - split; [reflexivity|]. split.
    + simpl. intros [H|[H|[H|[]]]];
        solve [now apply Hne1 | discriminate H].
    + split; reflexivity.
  - destruct (platform w (h1 ++ [(photo, Raise y)])
                (reply_text (critical_text y))) as [m3|z].
    + split; [reflexivity|]. split.
      * simpl. intros [H|[H|[H|[H|[]]]]];
          solve [now apply Hne1 | now apply (Hne2 y) | discriminate H].
      * split; reflexivity.
    + split; [reflexivity|]. split.
      * simpl. intros [H|[H|[H|[]]]];
          solve [now apply Hne1 | now apply (Hne2 y) | discriminate H].
      * split; reflexivity.
Qed.

Lemma text_failure_keeps_photo_witness :
  photo_replies (events (generate_command Sample.text_down Sample.update
                           Sample.args))
  = [reply_photo {| buffer := [137; 80; 78; 71]%N; position := 0 |}
       (lit "Error generating text: timeout")].
Proof.
  apply (@text_failure_keeps_photo Sample.text_down Sample.update
           Sample.Pyro Sample.Fire Sample.Epic []
           {| message_id := 100 |} (Sample.exn "timeout")
           {| buffer := [137; 80; 78; 71]%N; position := 0 |}
           eq_refl eq_refl eq_refl).
Defined.

(** C4, as stated, fails: when the image path has failed and the
    platform refuses the text reply, lines 101-102 send a second text
    message, the "Critical Error" text, and the stats text does not
    arrive. *)
Lemma image_failure_one_text_reply_fails :
  let tr := events (generate_command Sample.no_image_refused Sample.update
                      Sample.args) in
  chat_events tr
  = [ (reply_text (status_text Sample.Pyro), Ok {| message_id := 100 |});
      (reply_text Sample.payload, Raise (Sample.exn "Timed out"));
      (reply_text (lit "Critical Error: Timed out"), Ok {| message_id := 102 |});
      (delete_message 42 100, Ok {| message_id := 103 |}) ]
  /\ replies_after_status tr
     = [reply_text Sample.payload; reply_text (lit "Critical Error: Timed out")]
  /\ ~ image_failure_one_text_reply.
Proof.
  split; [vm_compute; reflexivity|].
  split; [vm_compute; reflexivity|].
  intros H.
  specialize (H Sample.no_image_refused Sample.update
                Sample.Pyro Sample.Fire Sample.Epic []
                {| message_id := 100 |} (Sample.exn "quota exceeded")
                Sample.payload eq_refl
                (call_raises Sample.no_image_refused _ eq_refl) eq_refl).
  vm_compute in H. discriminate H.
Qed.

(** C4, amended: when the image path fails (the call raises, the
    response has no part or its part has no image, or the PNG encoding
    raises), the image client returns no image and logs "Image Error: "
    with the detail; the handler sends no photo, and the one call of its
    [try] block is the plain message with the stats text.  When the
    platform accepts that reply it is the only message after the status
    message and the deletion of the status message follows; when the
    platform refuses it, a second plain message follows, "Critical
    Error: " with the detail of the refusal.  Nothing of the image
    failure reaches the chat: what the platform sees is the same for any
    other failure of the image path. *)
Theorem image_failure_degrades (w : World) (u : Update) (n e r : str)
        (rest : list str) (m : Message) (d : PyException) :
  platform w [] (reply_text (status_text n)) = Ok m ->
  image_failure w (format_img_prompt n e) d ->
  let args := Some (n :: e :: r :: rest) in
  let status := reply_text (status_text n) in
  let del := delete_message (effective_chat_id u) (message_id m) in
  let tr := events (generate_command w u args) in
  let h1 := [(status, Ok m)] in
  outcome (image_generator w n e) = Ok None
  /\ logged tr = [lit "Image Error: " ++ exn_str d]
  /\ photo_replies tr = []
  /\ (exists s,
        outcome (get_gemini_response w n e r) = Ok (s, None)
        /\ (forall t, chat_calls (fst (reply_body w n e r t))
                      = chat_calls t ++ [reply_text s])
        /\ match platform w h1 (reply_text s) with
           | Ok _ =>
               chat_calls tr = [status; reply_text s; del]
               /\ replies_after_status tr = [reply_text s]
           | Raise x =>
               let critical := reply_text (critical_text x) in
               replies_after_status tr = [reply_text s; critical]
               /\ match platform w (h1 ++ [(reply_text s, Raise x)]) critical with
                  | Ok _ => chat_calls tr = [status; reply_text s; critical; del]
                  | Raise _ => chat_calls tr = [status; reply_text s; critical]
                  end
           end)
  /\ (forall w' d',
        text_outcome w' (format_prompt n e r)
        = text_outcome w (format_prompt n e r) ->
        (forall h c, platform w' h c = platform w h c) ->
        image_failure w' (format_img_prompt n e) d' ->
        chat_events (events (generate_command w' u args)) = chat_events tr).
Proof.
  intros Hs Hf args status del tr h1.
  pose proof (image_failure_outcome Hf) as Hi.
  split.
  { unfold outcome, run. rewrite image_generator_run, Hi. reflexivity. }
  split.
  { subst tr args.
    rewrite (proj2 (generate_command_generation w u n e r rest Hs)), Hi.
    reflexivity. }
  assert (Hchat :
    chat_events tr
    = let reply := reply_text (stats_of (text_outcome w (format_prompt n e r))) in
      let h1 := [(reply_text (status_text n), Ok m)] in
      match platform w h1 reply with
      | Ok m2 =>
          let h2 := h1 ++ [(reply, Ok m2)] in h2 ++ [(del, platform w h2 del)]
      | Raise x =>
          let critical := reply_text (critical_text x) in
          let h2 := h1 ++ [(reply, Raise x)] in
          match platform w h2 critical with
          | Ok m3 =>
              let h3 := h2 ++ [(critical, Ok m3)] in
              h3 ++ [(del, platform w h3 del)]
          | Raise y => h2 ++ [(critical, Raise y)]
          end
      end).
  { subst tr args. rewrite generate_command_chat, Hs, Hi. reflexivity. }
  split.
  { unfold photo_replies, chat_calls. rewrite Hchat. cbv zeta.
    destruct (platform w _ (reply_text (stats_of _))) as [m2|x];
      [reflexivity|].
    destruct (platform w _ (reply_text (critical_text x))); reflexivity. }
  split.
  { exists (stats_of (text_outcome w (format_prompt n e r))).
    split; [rewrite get_gemini_response_outcome, Hi; reflexivity|].
    split; [intros t; rewrite reply_body_calls, Hi; reflexivity|].
    unfold replies_after_status, chat_calls. rewrite Hchat. cbv zeta.
    fold status. fold h1.
    destruct (platform w h1 (reply_text (stats_of _))) as [m2|x].
    - split; reflexivity.
    - destruct (platform w _ (reply_text (critical_text x)));
        split; reflexivity. }
  intros w' d' Ht Hp Hf'.
  rewrite Hchat. subst args.
  rewrite generate_command_chat, Ht, (image_failure_outcome Hf').
  rewrite !Hp, Hs. cbv zeta.
  change (reply_call (stats_of (text_outcome w (format_prompt n e r)))
            (image_of (Raise d')))
    with (reply_text (stats_of (text_outcome w (format_prompt n e r)))).
  rewrite !Hp.
  destruct (platform w _ (reply_text (stats_of _))) as [m2|x];
    [rewrite !Hp; reflexivity|].
  rewrite !Hp.
  destruct (platform w _ (reply_text (critical_text x)));
    rewrite ?Hp; reflexivity.
Qed.

Lemma image_failure_degrades_witness :
  logged (events (generate_command Sample.no_image Sample.update Sample.args))
  = [lit "Image Error: quota exceeded"].
Proof.
  apply (@image_failure_degrades Sample.no_image Sample.update
           Sample.Pyro Sample.Fire Sample.Epic []
           {| message_id := 100 |} (Sample.exn "quota exceeded")
           eq_refl (call_raises Sample.no_image _ eq_refl)).
Defined.

(* ================================================================== *)
(** ** The request orchestrator: the status notification               *)
(* ================================================================== *)

Section HandlerOutcome.

Variable w : World.
Variable u : Update.

(** How the generation path ends. *)
Lemma generate_command_outcome n e r rest :
  let status := reply_text (status_text n) in
  let reply := reply_call (stats_of (text_outcome w (format_prompt n e r)))
                          (image_of (image_outcome w (format_img_prompt n e))) in
  outcome (generate_command w u (Some (n :: e :: r :: rest)))
  = match platform w [] status with
    | Raise x => Raise x
    | Ok m =>
        let del := delete_message (effective_chat_id u) (message_id m) in
        let h1 := [(status, Ok m)] in
        match platform w h1 reply with
        | Ok m2 => void (platform w (h1 ++ [(reply, Ok m2)]) del)
        | Raise x =>
            let critical := reply_text (critical_text x) in
            let h2 := h1 ++ [(reply, Raise x)] in
            match platform w h2 critical with
            | Ok m3 => void (platform w (h2 ++ [(critical, Ok m3)]) del)
            | Raise y => Raise y
            end
        end
    end.
Proof.
  intros status reply. unfold outcome.
  rewrite generate_command_run. fold status. fold reply.
  destruct (platform w [] status) as [m|x]; [|reflexivity].
  cbv zeta.
  destruct (platform w [(status, Ok m)] reply) as [m2|x]; [reflexivity|].
  destruct (platform w ([(status, Ok m)] ++ [(reply, Raise x)])
              (reply_text (critical_text x))); reflexivity.
Qed.

End HandlerOutcome.

(** C2, as stated, fails: when the platform refuses the reply and then
    the "Critical Error" message as well, the status notification has
    been created but the handler ends without trying to delete it. *)
Lemma status_deleted_exactly_once_fails :
  let tr := events (generate_command Sample.blocked Sample.update Sample.args) in
  let refused := Raise (Sample.exn "Forbidden: bot was blocked by the user") in
  chat_events tr
  = [ (reply_text (status_text Sample.Pyro), Ok {| message_id := 100 |});
      (reply_text Sample.payload, refused);
      (reply_text (lit "Critical Error: Forbidden: bot was blocked by the user"),
       refused) ]
  /\ delete_attempts tr = []
  /\ ~ status_deleted_exactly_once.
Proof.
  split; [vm_compute; reflexivity|].
  split; [vm_compute; reflexivity|].
  intros H.
  destruct (H Sample.blocked Sample.update Sample.args) as (m & _ & Hd).
  - simpl. lia.
  - vm_compute in Hd. discriminate Hd.
Qed.

(** C2, amended: on a request with three arguments whose status message
    was sent, that send is the first chat call, and exactly one attempt
    to delete the message follows the photo or text reply when the
    platform accepts it, and follows the "Critical Error" message when
    the platform refuses the reply but accepts that message; when the
    "Critical Error" message is refused too, no deletion is attempted
    and the exception leaves the handler. *)
Theorem status_notification_lifecycle (w : World) (u : Update) (n e r : str)
        (rest : list str) (m : Message) (s : str) (img : option BytesIO) :
  platform w [] (reply_text (status_text n)) = Ok m ->
  outcome (get_gemini_response w n e r) = Ok (s, img) ->
  let status := reply_text (status_text n) in
  let reply := reply_call s img in
  let del := delete_message (effective_chat_id u) (message_id m) in
  let tr := events (generate_command w u (Some (n :: e :: r :: rest))) in
  let h1 := [(status, Ok m)] in
  hd_error (chat_events tr) = Some (status, Ok m)
  /\ match platform w h1 reply with
     | Ok _ =>
         chat_calls tr = [status; reply; del]
         /\ delete_attempts tr = [del]
     | Raise x =>
         let critical := reply_text (critical_text x) in
         match platform w (h1 ++ [(reply, Raise x)]) critical with
         | Ok _ =>
             chat_calls tr = [status; reply; critical; del]
             /\ delete_attempts tr = [del]
         | Raise y =>
             chat_calls tr = [status; reply; critical]
             /\ delete_attempts tr = []
             /\ outcome (generate_command w u (Some (n :: e :: r :: rest)))
                = Raise y
         end
     end.
Proof.
  intros Hs Hg status reply del tr h1.
  rewrite get_gemini_response_outcome in Hg. injection Hg as Hst Himg.
  subst tr. unfold delete_attempts, chat_calls.
  rewrite generate_command_outcome, generate_command_chat.
  rewrite Hst, Himg, Hs. cbv zeta.
  fold status. fold reply. fold del. fold h1.
  assert (Hr : is_delete reply = false) by (subst reply; now destruct img).
  destruct (platform w h1 reply) as [m2|x].
  - split; [reflexivity|]. simpl. rewrite Hr. split; reflexivity.
  - destruct (platform w (h1 ++ [(reply, Raise x)])
                (reply_text (critical_text x))) as [m3|y];
      (split; [reflexivity|]); simpl; rewrite Hr; repeat split.
Qed.

Lemma status_notification_lifecycle_witness :
  delete_attempts (events (generate_command Sample.happy Sample.update
                             Sample.args))
  = [delete_message 42 100].
Proof.
  exact (proj2 (proj2 (@status_notification_lifecycle Sample.happy
                         Sample.update Sample.Pyro Sample.Fire Sample.Epic []
                         {| message_id := 100 |} Sample.payload
                         (Some {| buffer := [137; 80; 78; 71]%N;
                                  position := 0 |})
                         eq_refl eq_refl))).
Defined.

(** C1, as stated, fails: the deletion on line 104 is outside the [try]
    block, so when the status message is already gone the exception
    leaves the handler. *)
Lemma deletion_failure_contained_fails :
  let gone := Raise (Sample.exn "Message to delete not found") in
  chat_events (events (generate_command Sample.gone Sample.update Sample.args))
  = [ (reply_text (status_text Sample.Pyro), Ok {| message_id := 100 |});
      (reply_text Sample.payload, Ok {| message_id := 101 |});
      (delete_message 42 100, gone) ]
  /\ outcome (generate_command Sample.gone Sample.update Sample.args)
     = Raise (Sample.exn "Message to delete not found")
  /\ ~ deletion_failure_contained.
Proof.
  split; [vm_compute; reflexivity|].
  split; [vm_compute; reflexivity|].
  intros H.
  specialize (H Sample.gone Sample.update Sample.args 42%Z 100%Z
                (Sample.exn "Message to delete not found")).
  assert (Hin : In (delete_message 42 100,
                    @Raise Message (Sample.exn "Message to delete not found"))
                   (chat_events (events (generate_command Sample.gone
                                           Sample.update Sample.args)))).
  { vm_compute. right. right. left. reflexivity. }
  apply H in Hin. vm_compute in Hin. discriminate Hin.
Qed.

(** C1, amended: a failure of the deletion of the status notification is
    not caught: the exception leaves the handler.  The deletion is the
    handler's last chat call, made on the status message after the
    reply, so nothing about the failure is sent to the user. *)
Theorem deletion_failure_propagates (w : World) (u : Update)
        (args : option (list str)) (cid mid : Z) (x : PyException) :
  let tr := events (generate_command w u args) in
  In (delete_message cid mid, Raise x) (chat_events tr) ->
  outcome (generate_command w u args) = Raise x
  /\ exists m before,
      chat_events tr = before ++ [(delete_message cid mid, Raise x)]
      /\ hd_error before = Some (reply_text (status_text (arg args 0)), Ok m)
      /\ cid = effective_chat_id u
      /\ mid = message_id m
      /\ 2 <= List.length before.
Proof.
  intros tr Hin. subst tr.
  destruct (py_not args || Nat.ltb (len args) 3) eqn:Hg.
  { unfold events in Hin. rewrite (generate_command_usage w u args Hg) in Hin.
    destruct Hin as [H|[]]. discriminate H. }
  apply guard_accepts in Hg. destruct Hg as (n & e & r & rest & ->).
  rewrite generate_command_outcome.
  rewrite generate_command_chat in Hin |- *.
  change (arg (Some (n :: e :: r :: rest)) 0) with n.
  set (reply := reply_call _ _) in *.
  assert (Hr : forall o : result Message,
             (reply, o) <> (delete_message cid mid, Raise x)).
  { intros o H. subst reply. unfold reply_call in H.
    destruct (image_of _); discriminate H. }
  destruct (platform w [] (reply_text (status_text n))) as [m|x0].
  2:{ destruct Hin as [H|[]]. discriminate H. }
  cbv zeta in Hin |- *.
  destruct (platform w [(reply_text (status_text n), Ok m)] reply) as [m2|x1].
  - cbn [app] in Hin |- *.
    destruct Hin as [H|[H|[H|[]]]];
      [discriminate H | now apply Hr in H |].
    injection H as Hc Hm Hx. rewrite Hx. split; [reflexivity|].
    exists m, [(reply_text (status_text n), Ok m); (reply, Ok m2)].
    rewrite <- Hc, <- Hm. simpl. repeat split. lia.
  - destruct (platform w _ (reply_text (critical_text x1))) as [m3|y].
    + cbn [app] in Hin |- *.
      destruct Hin as [H|[H|[H|[H|[]]]]];
        [discriminate H | now apply Hr in H | discriminate H |].
      injection H as Hc Hm Hx. rewrite Hx. split; [reflexivity|].
      exists m, [(reply_text (status_text n), Ok m); (reply, Raise x1);
                 (reply_text (critical_text x1), Ok m3)].
      rewrite <- Hc, <- Hm. simpl. repeat split. lia.
    + destruct Hin as [H|[H|[H|[]]]];
        [discriminate H | now apply Hr in H | discriminate H].
Qed.

Lemma deletion_failure_propagates_witness :
  outcome (generate_command Sample.gone Sample.update Sample.args)
  = Raise (Sample.exn "Message to delete not found").
Proof.
  apply (@deletion_failure_propagates Sample.gone Sample.update Sample.args
           42%Z 100%Z (Sample.exn "Message to delete not found")).
  vm_compute. right. right. left. reflexivity.
Defined.

(* ================================================================== *)
(** ** The handler as a whole                                          *)
(* ================================================================== *)

(** X1: arguments beyond the third are ignored: the handler behaves on
    them exactly as on the first three alone. *)
Theorem extra_arguments_ignored (w : World) (u : Update) (n e r : str)
        (rest : list str) (t : Trace) :
  generate_command w u (Some (n :: e :: r :: rest)) t
  = generate_command w u (Some [n; e; r]) t.
Proof. reflexivity. Qed.

(** X2: when the status message cannot be sent, the handler stops
    there: the exception leaves the handler, neither model is called
    and no other chat call is made. *)
Theorem status_failure_aborts (w : World) (u : Update) (n e r : str)
        (rest : list str) (x : PyException) :
  platform w [] (reply_text (status_text n)) = Raise x ->
  run (generate_command w u (Some (n :: e :: r :: rest)))
  = ([EvChat (reply_text (status_text n)) (Raise x)], Raise x).
Proof.
  intros Hs. rewrite generate_command_run, Hs. reflexivity.
Qed.

Lemma status_failure_aborts_witness :
  events (generate_command Sample.offline Sample.update Sample.args)
  = [EvChat (reply_text (status_text Sample.Pyro))
       (Raise (Sample.exn "Timed out"))].
Proof.
  exact (f_equal fst
           (@status_failure_aborts Sample.offline Sample.update
              Sample.Pyro Sample.Fire Sample.Epic []
              (Sample.exn "Timed out") eq_refl)).
Defined.

(** X3: on a platform that accepts every call the handler returns
    normally whatever the two models do, and with three arguments its
    chat calls are the status message, the one reply and the deletion of
    the status message: no "Critical Error" message is ever sent for a
    failure of a model. *)
Theorem accepted_run_returns (w : World) (u : Update)
        (args : option (list str)) :
  accepting w ->
  outcome (generate_command w u args) = Ok tt
  /\ forall n e r rest,
      args = Some (n :: e :: r :: rest) ->
      exists m s img,
        platform w [] (reply_text (status_text n)) = Ok m
        /\ outcome (get_gemini_response w n e r) = Ok (s, img)
        /\ chat_calls (events (generate_command w u args))
           = [ reply_text (status_text n);
               reply_call s img;
               delete_message (effective_chat_id u) (message_id m) ].
Proof.
  intros Hacc.
  destruct (py_not args || Nat.ltb (len args) 3) eqn:Hg.
  - split.
    + unfold outcome. rewrite (generate_command_usage w u args Hg).
      destruct (Hacc [] (reply_text usage_warning)) as [m ->]. reflexivity.
    + intros n e r rest ->. discriminate Hg.
  - apply guard_accepts in Hg. destruct Hg as (n & e & r & rest & ->).
    destruct (Hacc [] (reply_text (status_text n))) as [m Hs].
    set (reply := reply_call (stats_of (text_outcome w (format_prompt n e r)))
                    (image_of (image_outcome w (format_img_prompt n e)))).
    destruct (Hacc [(reply_text (status_text n), Ok m)] reply) as [m2 Hr].
    destruct (Hacc ([(reply_text (status_text n), Ok m)] ++ [(reply, Ok m2)])
                (delete_message (effective_chat_id u) (message_id m)))
      as [m3 Hd].
    split.
    + rewrite generate_command_outcome, Hs. cbv zeta. fold reply.
      rewrite Hr, Hd. reflexivity.
    + intros n' e' r' rest' [= <- <- <- <-].
      exists m, (stats_of (text_outcome w (format_prompt n e r))),
        (image_of (image_outcome w (format_img_prompt n e))).
      split; [exact Hs|]. split; [apply get_gemini_response_outcome|].
      unfold chat_calls. rewrite generate_command_chat, Hs. cbv zeta.
      fold reply. rewrite Hr, Hd. reflexivity.
Qed.

Lemma accepting_accept_all w :
  platform w = Sample.accept_all -> accepting w.
Proof. intros H h c. rewrite H. eexists. reflexivity. Qed.

Lemma accepted_run_returns_witness :
  outcome (generate_command Sample.no_image Sample.update Sample.args) = Ok tt.
Proof.
  apply (@accepted_run_returns Sample.no_image Sample.update Sample.args).
  apply accepting_accept_all. reflexivity.
Defined.

(** X4: every run of the handler makes at least one chat call, and the
    handler ends as its last chat call does: it returns normally when
    the platform accepted that call and raises the call's exception
    when it did not. *)
Theorem outcome_is_last_call (w : World) (u : Update)
        (args : option (list str)) :
  exists before c o,
    chat_events (events (generate_command w u args)) = before ++ [(c, o)]
    /\ outcome (generate_command w u args) = void o.
Proof.
  destruct (py_not args || Nat.ltb (len args) 3) eqn:Hg.
  - unfold events, outcome. rewrite (generate_command_usage w u args Hg).
    exists [], (reply_text usage_warning),
      (platform w [] (reply_text usage_warning)).
    split; reflexivity.
  - apply guard_accepts in Hg. destruct Hg as (n & e & r & rest & ->).
    rewrite generate_command_outcome, generate_command_chat.
    set (reply := reply_call _ _).
    destruct (platform w [] (reply_text (status_text n))) as [m|x].
    2:{ exists [], (reply_text (status_text n)), (Raise x). split; reflexivity. }
    cbv zeta.
    destruct (platform w [(reply_text (status_text n), Ok m)] reply) as [m2|x].
    { eexists _, _, _. split; reflexivity. }
    destruct (platform w _ (reply_text (critical_text x))) as [m3|y].
    + eexists _, _, _. split; reflexivity.
    + eexists _, _, (Raise y). split; reflexivity.
Qed.

Lemma image_events_logged prompt o :
  List.length (logged (image_events prompt o)) <= 1.
Proof. destruct o; simpl; lia. Qed.

(** X5: a run of the handler is bounded: between one and four chat
    calls, each model called at most once (the text model first, then
    the image model, or neither), at most one log entry, at most one
    photo and at most one deletion.  Nothing is retried. *)
Theorem run_is_bounded (w : World) (u : Update) (args : option (list str)) :
  let tr := events (generate_command w u args) in
  1 <= List.length (chat_calls tr) <= 4
  /\ (model_calls tr = []
      \/ model_calls tr
         = [ EvTextModel (format_prompt (arg args 0) (arg args 1) (arg args 2));
             EvImageModel (format_img_prompt (arg args 0) (arg args 1)) ])
  /\ List.length (logged tr) <= 1
  /\ List.length (photo_replies tr) <= 1
  /\ List.length (delete_attempts tr) <= 1.
Proof.
  intros tr. subst tr.
  destruct (py_not args || Nat.ltb (len args) 3) eqn:Hg.
  { unfold events. rewrite (generate_command_usage w u args Hg).
    simpl. repeat split; auto. }
  apply guard_accepts in Hg. destruct Hg as (n & e & r & rest & ->).
  change (arg (Some (n :: e :: r :: rest)) 0) with n.
  change (arg (Some (n :: e :: r :: rest)) 1) with e.
  change (arg (Some (n :: e :: r :: rest)) 2) with r.
  destruct (platform w [] (reply_text (status_text n))) as [m|x] eqn:Hs.
  2:{ unfold events. rewrite generate_command_run, Hs.
      simpl. repeat split; auto. }
  destruct (generate_command_generation w u n e r rest Hs) as [Hm Hl].
  rewrite Hm, Hl.
  unfold photo_replies, delete_attempts, chat_calls.
  rewrite generate_command_chat, Hs. cbv zeta.
  set (reply := reply_call _ _).
  assert (Hd : is_delete reply = false)
    by (subst reply; unfold reply_call; now destruct (image_of _)).
  assert (Hp : List.length (filter is_photo [reply]) <= 1)
    by (simpl; destruct (is_photo reply); simpl; lia).
  simpl in Hp.
  pose proof (image_events_logged (format_img_prompt n e)
                (image_outcome w (format_img_prompt n e))) as Hlog.
  destruct (platform w [(reply_text (status_text n), Ok m)] reply) as [m2|x].
  - simpl. rewrite Hd. destruct (is_photo reply); simpl in *;
      repeat split; auto; lia.
  - destruct (platform w _ (reply_text (critical_text x))) as [m3|y];
      simpl; rewrite Hd; destruct (is_photo reply); simpl in *;
      repeat split; auto; lia.
Qed.

(** X6: with three arguments and the status message sent, the handler
    works in this order: the status message, the text model, the image
    model, the log entry of a failed image path, and only then the
    reply; after the reply no model is called and nothing is logged. *)
Theorem generation_between_status_and_reply (w : World) (u : Update)
        (n e r : str) (rest : list str) (m : Message) :
  platform w [] (reply_text (status_text n)) = Ok m ->
  exists s img o tail,
    outcome (get_gemini_response w n e r) = Ok (s, img)
    /\ events (generate_command w u (Some (n :: e :: r :: rest)))
       = EvChat (reply_text (status_text n)) (Ok m)
         :: EvTextModel (format_prompt n e r)
         :: image_events (format_img_prompt n e)
                         (image_outcome w (format_img_prompt n e))
         ++ EvChat (reply_call s img) o :: tail
    /\ model_calls tail = []
    /\ logged tail = [].
Proof.
  intros Hs.
  exists (stats_of (text_outcome w (format_prompt n e r))),
    (image_of (image_outcome w (format_img_prompt n e))).
  unfold events. rewrite generate_command_run, Hs. cbv zeta.
  set (reply := reply_call _ _).
  destruct (platform w [(reply_text (status_text n), Ok m)] reply) as [m2|x].
  - eexists _, _. split; [apply get_gemini_response_outcome|].
    split; [reflexivity|]. split; reflexivity.
  - destruct (platform w _ (reply_text (critical_text x))) as [m3|y];
      (eexists _, _; split; [apply get_gemini_response_outcome|];
       split; [reflexivity|]; split; reflexivity).
Qed.

Lemma generation_between_status_and_reply_witness :
  exists tail,
    events (generate_command Sample.no_image Sample.update Sample.args)
    = EvChat (reply_text (status_text Sample.Pyro)) (Ok {| message_id := 100 |})
      :: EvTextModel (format_prompt Sample.Pyro Sample.Fire Sample.Epic)
      :: EvImageModel (format_img_prompt Sample.Pyro Sample.Fire)
      :: EvLogError (lit "Image Error: quota exceeded")
      :: tail.
Proof.
  destruct (@generation_between_status_and_reply Sample.no_image Sample.update
              Sample.Pyro Sample.Fire Sample.Epic []
              {| message_id := 100 |} eq_refl)
    as (s & img & o & tail & _ & Hev & _).
  exists (EvChat (reply_call s img) o :: tail). exact Hev.
Defined.

(* ================================================================== *)
(** ** The generator clients                                           *)
(* ================================================================== *)

(** X7: [get_gemini_response] always returns, after exactly one call of
    the text model followed by exactly one call of the image model,
    whatever either call does; it logs one "Image Error" entry exactly
    when it returns no image, and nothing otherwise. *)
Theorem generate_single_attempt (w : World) (n e r : str) (t : Trace) :
  exists s img log,
    get_gemini_response w n e r t
    = (t ++ [ EvTextModel (format_prompt n e r);
              EvImageModel (format_img_prompt n e) ] ++ log,
       Ok (s, img))
    /\ (forall bio, img = Some bio -> log = [])
    /\ (img = None ->
        exists d, image_failure w (format_img_prompt n e) d
                  /\ log = [EvLogError (lit "Image Error: " ++ exn_str d)]).
Proof.
  unfold get_gemini_response. rewrite generate_run.
  unfold generation_events, image_events.
  destruct (image_outcome w (format_img_prompt n e)) as [bio|d] eqn:Hi.
  - eexists _, (Some bio), []. split; [reflexivity|].
    split; [reflexivity|discriminate].
  - eexists _, None, _. split; [reflexivity|].
    split; [discriminate|]. intros _. exists d.
    split; [apply image_outcome_failure; exact Hi|reflexivity].
Qed.

(** X8: the image client returns an image exactly when the model
    answers, the answer has a first part, that part has an image and the
    image encodes as PNG; the buffer returned then holds exactly the PNG
    bytes and is rewound to position 0.  Parts after the first are never
    looked at. *)
Theorem image_success_rewound (w : World) (n e : str) (t : Trace)
        (bio : BytesIO) :
  snd (image_generator w n e t) = Ok (Some bio)
  <-> exists resp part rest img bytes,
      image_model w (format_img_prompt n e) = Ok resp
      /\ parts resp = part :: rest
      /\ image part = Ok img
      /\ png_encoding img = Ok bytes
      /\ bio = {| buffer := bytes; position := 0 |}.
Proof.
  rewrite image_generator_run. unfold snd, image_outcome, and_then, save.
  split.
  - destruct (image_model w _) as [resp|x] eqn:Hm; [|discriminate].
    destruct (parts resp) as [|part rest] eqn:Hp; [discriminate|].
    simpl. destruct (image part) as [img|x] eqn:Hi; [|discriminate].
    destruct (png_encoding img) as [bytes|x] eqn:He; [|discriminate].
    simpl. intros [= <-].
    exists resp, part, rest, img, bytes. repeat split; assumption.
  - intros (resp & part & rest & img & bytes & -> & -> & Hi & He & ->).
    simpl. rewrite Hi, He. reflexivity.
Qed.

Lemma image_success_rewound_witness :
  snd (image_generator Sample.happy Sample.Pyro Sample.Fire [])
  = Ok (Some {| buffer := [137; 80; 78; 71]%N; position := 0 |}).
Proof.
  apply (proj2 (@image_success_rewound Sample.happy Sample.Pyro Sample.Fire []
                  {| buffer := [137; 80; 78; 71]%N; position := 0 |})).
  exists {| parts := [ {| image := Ok Sample.picture |} ] |},
    {| image := Ok Sample.picture |}, [], Sample.picture, [137; 80; 78; 71]%N.
  repeat split.
Defined.

Lemma lstrip_all_space s : PyStr.all_space s = true -> PyStr.lstrip s = [].
Proof.
  induction s as [|c t IH]; simpl; [reflexivity|].
  destruct (PyStr.isspace c); [exact IH|discriminate].
Qed.

Lemma strip_empty_iff s : PyStr.strip s = [] <-> PyStr.all_space s = true.
Proof.
  split.
  - intros H. destruct (PyStrFacts.strip_split s) as (a & b & Hs & Ha & Hb).
    rewrite H in Hs. rewrite Hs. unfold PyStr.all_space in *.
    rewrite forallb_app, Ha. exact Hb.
  - intros H. unfold PyStr.strip. rewrite (lstrip_all_space s H). reflexivity.
Qed.

(** X9: the stats text is empty exactly when the text call succeeds with
    a response made of white space only (the empty response included);
    after a failure it is never empty. *)
Theorem stats_text_empty_iff (w : World) (n e r : str) :
  outcome (stats_generator w n e r) = Ok []
  <-> exists raw, text_outcome w (format_prompt n e r) = Ok raw
                  /\ PyStr.all_space raw = true.
Proof.
  unfold outcome, run. rewrite stats_generator_run. unfold snd.
  destruct (text_outcome w (format_prompt n e r)) as [raw|x]; simpl.
  - split.
    + intros [= H]. exists raw. split; [reflexivity|].
      apply strip_empty_iff. exact H.
    + intros (raw' & [= <-] & H). f_equal. apply strip_empty_iff. exact H.
  - split.
    + unfold lit. simpl. discriminate.
    + intros (raw & H & _). discriminate H.
Qed.

Lemma stats_text_empty_iff_witness :
  outcome (stats_generator Sample.blank Sample.Pyro Sample.Fire Sample.Epic)
  = Ok [].
Proof.
  apply (proj2 (stats_text_empty_iff Sample.blank
                  Sample.Pyro Sample.Fire Sample.Epic)).
  exists (lit "  " ++ newline). split; reflexivity.
Defined.

(** X10: the rarity reaches the text model only: for two rarities on
    which the text call has the same outcome, what the handler does on
    the chat and how it ends are the same (whatever follows the third
    argument). *)
Theorem rarity_reaches_text_model_only (w : World) (u : Update)
        (n e r r' : str) (rest rest' : list str) :
  text_outcome w (format_prompt n e r) = text_outcome w (format_prompt n e r') ->
  chat_events (events (generate_command w u (Some (n :: e :: r :: rest))))
  = chat_events (events (generate_command w u (Some (n :: e :: r' :: rest'))))
  /\ outcome (generate_command w u (Some (n :: e :: r :: rest)))
     = outcome (generate_command w u (Some (n :: e :: r' :: rest'))).
Proof.
  intros H. rewrite !generate_command_chat, !generate_command_outcome, H.
  split; reflexivity.
Qed.

Lemma rarity_reaches_text_model_only_witness :
  outcome (generate_command Sample.happy Sample.update Sample.args)
  = outcome (generate_command Sample.happy Sample.update
               (Some [Sample.Pyro; Sample.Fire; lit "Shiny"; lit "please"])).
Proof.
  apply (@rarity_reaches_text_model_only Sample.happy Sample.update
           Sample.Pyro Sample.Fire Sample.Epic (lit "Shiny") [] [lit "please"]).
  reflexivity.
Defined.

(* ================================================================== *)
(** ** The prompt: distinct requests, distinct prompts                 *)
(* ================================================================== *)

Lemma first_space_splits (a b x y : str) :
  spaceless a -> spaceless b ->
  a ++ 32%N :: x = b ++ 32%N :: y -> a = b /\ x = y.
Proof.
  revert b. induction a as [|c a IH]; intros [|d b] Ha Hb H; simpl in H.
  - injection H as ->. now split.
  - injection H as <- _. exfalso. apply Hb. now left.
  - injection H as -> _. exfalso. apply Ha. now left.
  - injection H as -> H.
    destruct (IH b) as [-> ->]; try assumption.
    + intros Hin. apply Ha. now right.
    + intros Hin. apply Hb. now right.
    + now split.
Qed.

Lemma spaceless_comma s : spaceless s -> spaceless (s ++ [44%N]).
Proof.
  intros H Hin. apply in_app_or in Hin. destruct Hin as [Hin|[Hin|[]]].
  - now apply H.
  - discriminate Hin.
Qed.

(** X11: the prompt determines the request: when name and element hold
    no space, as the tokens of a command do, two requests with the same
    text prompt have the same name, element and rarity. *)
Theorem format_prompt_injective (n e r n' e' r' : str) :
  spaceless n -> spaceless e -> spaceless n' -> spaceless e' ->
  format_prompt n e r = format_prompt n' e' r' ->
  n = n' /\ e = e' /\ r = r'.
Proof.
  intros Hn He Hn' He' H.
  set (head := SYSTEM_PROMPT ++ newline ++ newline
                 ++ lit "USER INPUT -> Name: ").
  assert (Hf : forall a b c,
             format_prompt a b c
             = head ++ (a ++ [44%N])
                 ++ 32%N :: lit "Element: "
                 ++ (b ++ [44%N]) ++ 32%N :: lit "Rarity: " ++ c).
  { intros a b c. unfold format_prompt, head.
    rewrite <- !app_assoc. reflexivity. }
  rewrite !Hf in H. apply app_inv_head in H.
  apply first_space_splits in H; try now apply spaceless_comma.
  destruct H as [H1 H2]. apply app_inv_tail in H1.
  apply app_inv_head in H2.
  apply first_space_splits in H2; try now apply spaceless_comma.
  destruct H2 as [H2 H3]. apply app_inv_tail in H2.
  apply app_inv_head in H3. now repeat split.
Qed.

Lemma format_prompt_injective_witness :
  spaceless Sample.Pyro /\ spaceless Sample.Fire
  /\ (Sample.Pyro = Sample.Pyro /\ Sample.Fire = Sample.Fire
      /\ Sample.Epic = Sample.Epic).
Proof.
  assert (Hp : spaceless Sample.Pyro) by (vm_compute; intuition discriminate).
  assert (Hf : spaceless Sample.Fire) by (vm_compute; intuition discriminate).
  split; [exact Hp|]. split; [exact Hf|].
  exact (@format_prompt_injective Sample.Pyro Sample.Fire Sample.Epic
           Sample.Pyro Sample.Fire Sample.Epic Hp Hf Hp Hf eq_refl).
Defined.

(** The hypothesis is needed: a name with a blank in it can pass for a
    name and the start of an element. *)
Remark format_prompt_ambiguous (a b c r : str) :
  format_prompt (a ++ lit ", Element: " ++ b) c r
  = format_prompt a (b ++ lit ", Element: " ++ c) r.
Proof. unfold format_prompt. rewrite <- !app_assoc. reflexivity. Qed.

(* ================================================================== *)
(** ** Start-up and the [start] command                                *)
(* ================================================================== *)

(** X12: a secret that is set but empty counts as missing: the script
    prints the same diagnostic and exits with status 1 without building
    the application. *)
Theorem empty_secret_exits (getenv : Environ) :
  getenv (lit "GEMINI_API_KEY") = Some []
  \/ getenv (lit "TELEGRAM_BOT_TOKEN") = Some [] ->
  main getenv
  = (module_level (getenv (lit "GEMINI_API_KEY")) ++ [SysPrint missing_secrets],
     Exit 1).
Proof.
  intros H. unfold main.
  assert (Hu : unset (getenv (lit "GEMINI_API_KEY"))
               || unset (getenv (lit "TELEGRAM_BOT_TOKEN")) = true).
  { destruct H as [-> | ->]; simpl; [reflexivity | apply orb_true_r]. }
  rewrite Hu. reflexivity.
Qed.

Lemma empty_secret_exits_witness :
  snd (main Sample.empty_token) = Exit 1.
Proof.
  exact (f_equal snd (empty_secret_exits Sample.empty_token
                        (or_intror eq_refl))).
Defined.




(** X14: [start] makes one chat call, the greeting, whatever arguments
    follow the command and whatever the update; it calls no model,
    deletes nothing, and ends as that call does. *)
Theorem start_replies_greeting (w : World) (u : Update)
        (args : option (list str)) :
  let o := platform w [] (reply_text greeting) in
  run (start w u args) = ([EvChat (reply_text greeting) o], void o).
Proof.
  intros o. unfold run, start. unfold_monad.
  change (chat_events []) with (@nil (ChatCall * result Message)).
  fold o. destruct o; reflexivity.
Qed.
